(** * AirFlowCalculator: a shallow embedding of [airflowcalculator.py]

    The calculator keeps a log of (timestamp, CO ppm) pairs, fits an
    exponential decay to the ten most recent ones with scipy's [curve_fit],
    and turns the fitted decay constant into air changes per hour, a
    volumetric airflow and a confidence value.

    Modelling choices.
    - Python numbers (ints and floats alike) are real numbers [R]; binary64
      rounding, overflow and NaN are outside the model.
    - A Python call either returns or raises: [outcome].  Only instances of
      [Exception] are modelled, which is what [except Exception] catches.
    - [calculate_airflow] returns [None] or a dict with four keys:
      [option AirflowEstimate].
    - scipy's [curve_fit] is not code of this repository; it is a variable
      of the development, free to return any pair of parameters or to raise.
    - The [print] calls are diagnostics and are left out.

    The second part covers the array code of [model_evaluator.py]: the
    windows and splits of the data preparation, the control model, and the
    comparator with its weighted scores.  The forecasting libraries it wraps
    stay outside. *)

From Stdlib Require Import String.
From Stdlib Require Import Reals Lra Lia List ZArith Bool.
Import ListNotations.
Open Scope R_scope.

(** ** Python outcomes *)

Inductive py_exception : Type :=
| IndexError (msg : string)
| ValueError (msg : string)
| TypeError (msg : string)
| RuntimeError (msg : string)
| OverflowError (msg : string).

Inductive outcome (A : Type) : Type :=
| Ok (a : A)
| Raise (e : py_exception).

Arguments Ok {A} a.
Arguments Raise {A} e.

Definition bind {A B : Type} (m : outcome A) (k : A -> outcome B) : outcome B :=
  match m with
  | Ok a => k a
  | Raise e => Raise e
  end.

Notation "x <- m ;; k" := (bind m (fun x => k))
  (at level 61, m at next level, right associativity).
Notation "' pat <- m ;; k" := (bind m (fun x => match x with pat => k end))
  (at level 61, pat pattern, m at next level, right associativity).

(** [try: body except Exception as e: handler e] *)
Definition try_except {A : Type} (body : outcome A)
    (handler : py_exception -> outcome A) : outcome A :=
  match body with
  | Ok a => Ok a
  | Raise e => handler e
  end.

(** ** Sequences *)

(** [l[-n:]] for a positive [n]: the slice starts at [max (len l - n) 0]. *)
Definition slice_last {A : Type} (n : nat) (l : list A) : list A :=
  skipn (length l - n) l.

(** [a[i]] on a one-dimensional array, negative indices counting from the
    end; out of range raises [IndexError]. *)
Definition np_index (a : list R) (i : Z) : outcome R :=
  let n := Z.of_nat (length a) in
  let j := if (i <? 0)%Z then (i + n)%Z else i in
  if ((0 <=? j) && (j <? n))%Z%bool
  then match nth_error a (Z.to_nat j) with
       | Some v => Ok v
       | None => Raise (IndexError "index out of bounds")
       end
  else Raise (IndexError "index out of bounds").

(** ** Module constants *)

Module AirFlowInhibitorWeights.
Definition FURNITURE : R := 3.
Definition NUM_FANS : R := 2.
Definition RESIDENTIAL_CFM : R := 15.
End AirFlowInhibitorWeights.

Module Constants.
Definition NUM_FURNITURE : R := 6.
Definition INDOOR_VENT_SPEED : R := 0.5.
Definition PEOPLE : R := 4.
End Constants.

(** ** Numeric helpers *)

(** [math.e] *)
Definition math_e : R := exp 1.

(** [x ** y] for a positive base. *)
Definition py_pow (x y : R) : R := Rpower x y.

(** Nearest integer, ties to the even neighbour. *)
Definition round_half_even (x : R) : Z :=
  let f := Zfloor x in
  let d := x - IZR f in
  if Rlt_dec d (1 / 2) then f
  else if Rlt_dec (1 / 2) d then (f + 1)%Z
  else if Z.even f then f else (f + 1)%Z.

(** [round(x, ndigits)] for [ndigits >= 0]. *)
Definition py_round (x : R) (ndigits : nat) : R :=
  IZR (round_half_even (x * 10 ^ ndigits)) / 10 ^ ndigits.

(** ** The calculator *)

Record AirFlowCalculator : Type := {
  room_volume : R;
  CO_history : list (R * R)
}.

(** [AirFlowCalculator(room_volume_m3)] *)
Definition __init__ (room_volume_m3 : R) : AirFlowCalculator :=
  {| room_volume := room_volume_m3; CO_history := [] |}.

Definition add_measurement (self : AirFlowCalculator) (timestamp CO_ppm : R)
    : AirFlowCalculator :=
  {| room_volume := room_volume self;
     CO_history := CO_history self ++ [(timestamp, CO_ppm)] |}.

(** The dict returned on success. *)
Record AirflowEstimate : Type := {
  ACH : R;
  airflow_m3h : R;
  airflow_CFM : R;
  confidence : R
}.

(** The model function handed to the fitter; it reads [times[0]] of the
    enclosing call, and [times] is never empty where it is built. *)
Definition decay (times : list R) (t C0 lambd : R) : R :=
  C0 * exp (- lambd * (t - nth 0 times 0)).

(** [1 / (1 + (math.e ** -x))].  In binary64 the power overflows, and Python
    raises, for [x] below about -709; the calculator calls it at 104 and 154
    only. *)
Definition sigmoid (x : R) : R :=
  1 / (1 + py_pow math_e (- x)).

Definition quant_confidence (confidence : string)
    (num_furniture indoor_vent_speed current_capacity : R) : R :=
  let count := 50 in
  let count := if String.eqb confidence "low" then count - 25 else count + 25 in
  let add_factors :=
    num_furniture * AirFlowInhibitorWeights.FURNITURE +
    indoor_vent_speed * AirFlowInhibitorWeights.NUM_FANS +
    current_capacity * AirFlowInhibitorWeights.RESIDENTIAL_CFM in
  let cp_value := count + add_factors in
  let cp_value := sigmoid cp_value in
  py_round cp_value 2.

(** What [curve_fit f xdata ydata p0] gives back: the fitted parameters (the
    covariance matrix is dropped by the caller), or an exception. *)
Definition fitter : Type :=
  (R -> R -> R -> R) -> list R -> list R -> R * R -> outcome (R * R).

(** Lines 27-43: the checks made before the [try] block.  Either the call
    returns at once, or it goes on to the fit with [recent_data]. *)
Inductive gate_result : Type :=
| Return (v : outcome (option AirflowEstimate))
| Proceed (recent_data : list (R * R)).

Definition gate (self : AirFlowCalculator) : gate_result :=
  if (length (CO_history self) <? 2)%nat then Return (Ok None)
  else
    let recent_data := slice_last 10 (CO_history self) in
    let CO_vals := map snd recent_data in
    match np_index CO_vals 0, np_index CO_vals (-1) with
    | Ok first, Ok last =>
        if Rle_dec first last then Return (Ok None) else Proceed recent_data
    | Raise e, _ => Return (Raise e)
    | _, Raise e => Return (Raise e)
    end.

(** The arguments of the [curve_fit] call for a window. *)
Definition fit_call (curve_fit : fitter) (recent_data : list (R * R))
    : outcome (R * R) :=
  let times := map fst recent_data in
  let CO_vals := map snd recent_data in
  CO_vals_0 <- np_index CO_vals 0 ;;
  curve_fit (decay times) times CO_vals (CO_vals_0, 0.001).

(** Lines 45-99: the [try] block and its handler. *)
Definition fit_and_derive (curve_fit : fitter) (self : AirFlowCalculator)
    (recent_data : list (R * R)) : outcome (option AirflowEstimate) :=
  try_except
    ('(C0_fit, lambda_per_sec) <- fit_call curve_fit recent_data ;;
     let ACH := lambda_per_sec * 3600 in
     let airflow_m3h := ACH * room_volume self in
     let airflow_CFM := airflow_m3h * 0.588 in
     let bin_cval :=
       if (5 <=? length recent_data)%nat then "high"%string else "low"%string in
     Ok (Some {| ACH := ACH;
                 airflow_m3h := airflow_m3h;
                 airflow_CFM := airflow_CFM;
                 confidence :=
                   quant_confidence bin_cval
                     Constants.NUM_FURNITURE
                     Constants.INDOOR_VENT_SPEED
                     Constants.PEOPLE |}))
    (fun e => Ok None).

Definition calculate_airflow (curve_fit : fitter) (self : AirFlowCalculator)
    : outcome (option AirflowEstimate) :=
  match gate self with
  | Return v => v
  | Proceed recent_data => fit_and_derive curve_fit self recent_data
  end.

(** ** Vocabulary of the statements *)

(** The window a call works on. *)
Definition window (self : AirFlowCalculator) : list (R * R) :=
  slice_last 10 (CO_history self).

Definition first_CO (recent_data : list (R * R)) : R :=
  nth 0 (map snd recent_data) 0.

Definition last_CO (recent_data : list (R * R)) : R :=
  last (map snd recent_data) 0.

(** The sample-adequacy bucket of a window. *)
Definition bucket (recent_data : list (R * R)) : string :=
  if (5 <=? length recent_data)%nat then "high"%string else "low"%string.

(** The estimate assembled from a fitted decay constant. *)
Definition estimate_of (self : AirFlowCalculator) (recent_data : list (R * R)) (lambda_per_sec : R)
    : AirflowEstimate :=
  {| ACH := lambda_per_sec * 3600;
     airflow_m3h := lambda_per_sec * 3600 * room_volume self;
     airflow_CFM := lambda_per_sec * 3600 * room_volume self * 0.588;
     confidence :=
       quant_confidence (bucket recent_data)
         Constants.NUM_FURNITURE Constants.INDOOR_VENT_SPEED
         Constants.PEOPLE |}.

(** Sum of squared residuals of a model [f] with parameters [(C0, lambd)]. *)
Definition sum_sq_residuals (f : R -> R -> R -> R) (xdata ydata : list R)
    (C0 lambd : R) : R :=
  fold_right (fun xy acc => (f (fst xy) C0 lambd - snd xy) ^ 2 + acc) 0
    (combine xdata ydata).

(** A fitter for two samples of a positive signal: the exponential through
    both points.  Any other number of samples raises, as [curve_fit] does
    when there are fewer samples than parameters. *)
Definition two_point_fit : fitter :=
  fun _ xdata ydata _ =>
    match xdata, ydata with
    | [x0; x1], [y0; y1] => Ok (y0, ln (y0 / y1) / (x1 - x0))
    | _, _ => Raise (TypeError "two_point_fit: expected two samples")
    end.

(** A fitter that never converges. *)
Definition failing_fit : fitter :=
  fun _ _ _ _ => Raise (RuntimeError "Optimal parameters not found").

(** A fitter that rejects its input, with another exception than
    [failing_fit]. *)
Definition rejecting_fit : fitter :=
  fun _ _ _ _ => Raise (ValueError "array must not contain infs or NaNs").

(** A fitter that puts the exponential through the first and the last of
    the samples it is given; it needs at least two. *)
Definition endpoint_fit : fitter :=
  fun _ xdata ydata _ =>
    match xdata, ydata with
    | x0 :: _ :: _, y0 :: _ :: _ =>
        Ok (y0, ln (y0 / last ydata 0) / (last xdata 0 - x0))
    | _, _ => Raise (TypeError "endpoint_fit: expected two samples or more")
    end.

(** A fitter that returns fixed parameters, whatever it is given. *)
Definition const_fit (C0 lambd : R) : fitter :=
  fun _ _ _ _ => Ok (C0, lambd).

(** The reason tags the specification gives a missing result. *)
Inductive no_result_reason : Type :=
| InsufficientData
| NotDecaying
| FitFailed (detail : string).

(** ** Sample logs *)

Definition record_all (self : AirFlowCalculator) (samples : list (R * R))
    : AirFlowCalculator :=
  fold_left (fun s m => add_measurement s (fst m) (snd m)) samples self.

(** The room of the script's [__main__] block. *)
Definition demo_room : AirFlowCalculator :=
  record_all (__init__ 48)
    [(0, 400); (30, 380); (60, 362); (90, 345); (120, 328); (150, 313)].

Definition one_sample_room : AirFlowCalculator :=
  record_all (__init__ 48) [(0, 400)].

Definition flat_room : AirFlowCalculator :=
  record_all (__init__ 48) [(0, 400); (30, 400)].

Definition two_sample_room : AirFlowCalculator :=
  record_all (__init__ 48) [(0, 400); (30, 380)].

(** Two samples recorded with the later timestamp first. *)
Definition reversed_room : AirFlowCalculator :=
  record_all (__init__ 48) [(10, 400); (0, 300)].

(** Twelve samples: more than one window. *)
Definition long_room : AirFlowCalculator :=
  record_all (__init__ 48)
    [(0, 500); (30, 480); (60, 460); (90, 440); (120, 420); (150, 400);
     (180, 380); (210, 360); (240, 340); (270, 320); (300, 300); (330, 280)].

(** What the script would report for [two_sample_room] and for [demo_room]
    once the fit has returned the decay constant [lambd]. *)
Definition two_sample_estimate : AirflowEstimate :=
  estimate_of two_sample_room (window two_sample_room) (ln (400 / 380) / (30 - 0)).

Definition demo_estimate (lambd : R) : AirflowEstimate :=
  estimate_of demo_room (window demo_room) lambd.

(** Timestamps at the two ends of a window. *)
Definition first_time (recent_data : list (R * R)) : R :=
  nth 0 (map fst recent_data) 0.

Definition last_time (recent_data : list (R * R)) : R :=
  last (map fst recent_data) 0.

(** ** [model_evaluator.py]: windows for the forecasting models

    The data preparation and the control model of the benchmark, as far as
    they are array code of this repository.  A numpy array is a nested list
    together with the lengths of its trailing axes, which numpy keeps even
    when the leading axis is empty. *)

Module ModelEvaluator.

Inductive ndarray : Type :=
| Arr1 (a : list R)
| Arr2 (ncols : nat) (a : list (list R))
| Arr3 (nrows ncols : nat) (a : list (list (list R))).

(** [len(x.shape)] *)
Definition ndim (x : ndarray) : nat :=
  match x with
  | Arr1 _ => 1
  | Arr2 _ _ => 2
  | Arr3 _ _ _ => 3
  end.

(** [len(x)] *)
Definition len (x : ndarray) : nat :=
  match x with
  | Arr1 a => length a
  | Arr2 _ a => length a
  | Arr3 _ _ a => length a
  end.

(** Every row of a 2-D array has [ncols] entries; every item of a 3-D array
    has [nrows] rows of [ncols] entries. *)
Definition well_formed (x : ndarray) : Prop :=
  match x with
  | Arr1 _ => True
  | Arr2 ncols a => Forall (fun r => length r = ncols) a
  | Arr3 nrows ncols a =>
      Forall (fun w => length w = nrows /\ Forall (fun r => length r = ncols) w) a
  end.

(** A slice bound [i] on a sequence of length [n], as Python clamps it. *)
Definition slice_bound (n i : Z) : Z :=
  if (i <? 0)%Z then Z.max (i + n) 0 else Z.min i n.

(** [l[start:stop]]; [None] is an omitted bound. *)
Definition py_slice {A : Type} (l : list A) (start stop : option Z) : list A :=
  let n := Z.of_nat (length l) in
  let s := match start with None => 0%Z | Some i => slice_bound n i end in
  let e := match stop with None => n | Some i => slice_bound n i end in
  firstn (Z.to_nat (e - s)) (skipn (Z.to_nat s) l).

(** [x[start:stop]]: a slice along the first axis keeps the other axes. *)
Definition nd_slice (x : ndarray) (start stop : option Z) : ndarray :=
  match x with
  | Arr1 a => Arr1 (py_slice a start stop)
  | Arr2 ncols a => Arr2 ncols (py_slice a start stop)
  | Arr3 nrows ncols a => Arr3 nrows ncols (py_slice a start stop)
  end.

(** [int(x)] on a float: truncation towards zero. *)
Definition py_int (x : R) : Z :=
  if Rle_dec 0 x then Zfloor x else Zceil x.

(** [np.array(X)] for a list of equally shaped 2-D arrays; the empty list
    gives the 1-D array of shape [(0,)]. *)
Definition np_array3 (nrows ncols : nat) (X : list (list (list R))) : ndarray :=
  match X with
  | [] => Arr1 []
  | _ :: _ => Arr3 nrows ncols X
  end.

(** [data[i, j]] on a 2-D array. *)
Definition index2 (data : list (list R)) (i : nat) (j : Z) : outcome R :=
  match nth_error data i with
  | Some row => np_index row j
  | None => Raise (IndexError "index out of bounds")
  end.

(** The loop of [create_sequences] over the remaining indices [idx], with the
    lists [X] and [y] built so far.  [lookback] is a count. *)
Fixpoint create_sequences_loop (data : list (list R)) (lookback : nat)
    (target_idx : Z) (idx : list nat) (X : list (list (list R))) (y : list R)
    : outcome (list (list (list R)) * list R) :=
  match idx with
  | [] => Ok (X, y)
  | i :: idx' =>
      let X := X ++ [py_slice data (Some (Z.of_nat i - Z.of_nat lookback)%Z)
                       (Some (Z.of_nat i))] in
      v <- index2 data i target_idx ;;
      create_sequences_loop data lookback target_idx idx' X (y ++ [v])
  end.

(** [create_sequences(data, lookback, target_idx)] for a 2-D [data] with
    [ncols] columns. *)
Definition create_sequences (ncols : nat) (data : list (list R)) (lookback : nat)
    (target_idx : Z) : outcome (ndarray * ndarray) :=
  '(X, y) <- create_sequences_loop data lookback target_idx
               (seq lookback (length data - lookback)) [] [] ;;
  Ok (np_array3 lookback ncols X, Arr1 y).

(** The six arrays both splitting functions return. *)
Record split : Type := {
  X_train : ndarray;
  y_train : ndarray;
  X_val : ndarray;
  y_val : ndarray;
  X_test : ndarray;
  y_test : ndarray
}.

(** Lines 79-90 of [prepare_timeseries_data] and lines 127-138 of
    [simple_split]: the cut of [X] and [y] at [train_end] and [val_end]. *)
Definition split_arrays (X y : ndarray) (train_split val_split : R) : split :=
  let n_samples := len X in
  let train_end := py_int (INR n_samples * train_split) in
  let val_end := py_int (INR n_samples * (train_split + val_split)) in
  {| X_train := nd_slice X None (Some train_end);
     y_train := nd_slice y None (Some train_end);
     X_val := nd_slice X (Some train_end) (Some val_end);
     y_val := nd_slice y (Some train_end) (Some val_end);
     X_test := nd_slice X (Some val_end) None;
     y_test := nd_slice y (Some val_end) None |}.

(** Lines 77-106 of [prepare_timeseries_data], from the array [data] (scaled
    or not) on; [target_idx] is [feature_columns.index(target_column)]. *)
Definition prepare_timeseries_data_from (ncols : nat) (data : list (list R))
    (target_idx : Z) (lookback : nat) (train_split val_split : R)
    : outcome split :=
  '(X, y) <- create_sequences ncols data lookback target_idx ;;
  Ok (split_arrays X y train_split val_split).

(** [LastObservedModel.predict]: [X_test[:, -1]] for a 2-D array and
    [X_test[:, -1, 0]] otherwise.  numpy checks an index against the shape
    before it looks at any item. *)
Definition LastObservedModel_predict (X_test : ndarray) : outcome ndarray :=
  if (ndim X_test =? 2)%nat then
    match X_test with
    | Arr2 ncols a =>
        if (ncols =? 0)%nat
        then Raise (IndexError "index -1 is out of bounds for axis 1 with size 0")
        else Ok (Arr1 (map (fun r => last r 0) a))
    | _ => Raise (IndexError "too many indices for array")
    end
  else
    match X_test with
    | Arr3 nrows ncols a =>
        if (nrows =? 0)%nat
        then Raise (IndexError "index -1 is out of bounds for axis 1 with size 0")
        else if (ncols =? 0)%nat
        then Raise (IndexError "index 0 is out of bounds for axis 2 with size 0")
        else Ok (Arr1 (map (fun w => nth 0 (last w []) 0) a))
    | _ => Raise (IndexError "too many indices for array")
    end.

(** [np.concatenate([x, y])]: along the first axis, for arrays of one rank
    whose other axes agree. *)
Definition concatenate (x y : ndarray) : outcome ndarray :=
  match x, y with
  | Arr1 a, Arr1 b => Ok (Arr1 (a ++ b))
  | Arr2 c a, Arr2 c' b =>
      if (c =? c')%nat then Ok (Arr2 c (a ++ b))
      else Raise (ValueError "all the input array dimensions must match")
  | Arr3 r c a, Arr3 r' c' b =>
      if ((r =? r') && (c =? c'))%nat%bool then Ok (Arr3 r c (a ++ b))
      else Raise (ValueError "all the input array dimensions must match")
  | _, _ => Raise (ValueError "all the input arrays must have same number of dimensions")
  end.

End ModelEvaluator.

(** ** [model_evaluator.py]: the comparator

    [ModelComparator] keeps a list of models and a list of result rows.  What
    a model does when it is evaluated belongs to the libraries it wraps; one
    round of evaluations is a function [run] that gives, for each model, the
    row [get_summary] returns or the exception raised on the way. *)

Module ModelComparator.

Section Comparator.
Variables model summary : Type.

Record comparator : Type := {
  models : list model;
  results : list summary;
  results_df : option (list summary)
}.

(** [ModelComparator()]; [results_df] is not set before [compare] runs. *)
Definition init : comparator :=
  {| models := []; results := []; results_df := None |}.

Definition add_model (self : comparator) (m : model) : comparator :=
  {| models := models self ++ [m];
     results := results self;
     results_df := results_df self |}.

(** The loop of [compare]: a model whose evaluation raises is reported and
    skipped. *)
Fixpoint compare_loop (run : model -> outcome summary) (ms : list model)
    (results : list summary) : list summary :=
  match ms with
  | [] => results
  | m :: ms' =>
      let results :=
        match run m with
        | Ok s => results ++ [s]
        | Raise _ => results
        end in
      compare_loop run ms' results
  end.

(** [compare(...)]: the new state and the returned frame. *)
Definition compare (run : model -> outcome summary) (self : comparator)
    : comparator * list summary :=
  let results := compare_loop run (models self) (results self) in
  ({| models := models self; results := results; results_df := Some results |},
   results).

(** The rows one round adds: those of the models that did not raise. *)
Definition successes (run : model -> outcome summary) (ms : list model)
    : list summary :=
  flat_map (fun m => match run m with Ok s => [s] | Raise _ => [] end) ms.

End Comparator.

Arguments models {model summary} _.
Arguments results {model summary} _.
Arguments results_df {model summary} _.
Arguments init {model summary}.
Arguments add_model {model summary} self m.
Arguments compare_loop {model summary} run ms results.
Arguments compare {model summary} run self.
Arguments successes {model summary} run ms.

(** A results frame: the metric columns by name, and for each row the model
    name and the values of the metric columns. *)
Record DataFrame : Type := {
  columns : list string;
  rows : list (string * list R)
}.

(** Position of a column, if the frame has it. *)
Fixpoint column_index (metric : string) (cols : list string) : option nat :=
  match cols with
  | [] => None
  | c :: cols' =>
      if String.eqb metric c then Some 0%nat
      else option_map S (column_index metric cols')
  end.

(** [df[metric].values] for a column at position [i]. *)
Definition column_values (df : DataFrame) (i : nat) : list R :=
  map (fun row => nth i (snd row) 0) (rows df).

(** [values.min()] and [values.max()]; numpy raises on an empty array. *)
Definition np_min (values : list R) : outcome R :=
  match values with
  | [] => Raise (ValueError "zero-size array to reduction operation minimum")
  | v :: vs => Ok (fold_left Rmin vs v)
  end.

Definition np_max (values : list R) : outcome R :=
  match values with
  | [] => Raise (ValueError "zero-size array to reduction operation maximum")
  | v :: vs => Ok (fold_left Rmax vs v)
  end.

(** Lines 497-501: min-max normalisation, turned round for R2. *)
Definition normalize (metric : string) (values : list R) : outcome (list R) :=
  mn <- np_min values ;;
  mx <- np_max values ;;
  let normalized := map (fun v => (v - mn) / (mx - mn + 1e-10)) values in
  Ok (if String.eqb metric "R2"
      then map (fun x => 1 - x) normalized
      else normalized).

(** Elementwise [score += term] on arrays of one length. *)
Definition add_arrays (score term : list R) : list R :=
  map (fun p => fst p + snd p) (combine score term).

(** Lines 494-503: the loop over the weights.  A metric the frame lacks
    would be a KeyError at [df[metric]]; the check of lines 486-489 has ruled
    it out before the loop starts. *)
Fixpoint score_loop (df : DataFrame) (weights : list (string * R))
    (score : list R) : outcome (list R) :=
  match weights with
  | [] => Ok score
  | (metric, weight) :: weights' =>
      match column_index metric (columns df) with
      | None => Raise (IndexError "KeyError")
      | Some i =>
          normalized <- normalize metric (column_values df i) ;;
          score_loop df weights'
            (add_arrays score (map (fun x => x * weight) normalized))
      end
  end.

Definition default_weights : list (string * R) :=
  [("RMSE"%string, 0.35); ("MAE"%string, 0.25);
   ("Training Time (s)"%string, 0.15); ("Model Size (KB)"%string, 0.15);
   ("R2"%string, 0.10)].

(** Lines 473-503 of [get_best_model_weighted], on the frame [compare] has
    stored: the checks of the weights and the [Weighted_Score] of every row,
    in row order.  The ranking that follows sorts the rows by this score. *)
Definition weighted_scores (df : DataFrame) (weights : option (list (string * R)))
    : outcome (list (string * R)) :=
  let weights := match weights with None => default_weights | Some w => w end in
  let total_weight := fold_left Rplus (map snd weights) 0 in
  if Rlt_dec 0.01 (Rabs (total_weight - 1))
  then Raise (ValueError "Weights must sum to 1.0")
  else
    match find (fun mw => match column_index (fst mw) (columns df) with
                          | None => true
                          | Some _ => false
                          end) weights with
    | Some _ => Raise (ValueError "Metric not found in results")
    | None =>
        score <- score_loop df weights (map (fun _ => 0) (rows df)) ;;
        Ok (combine (map fst (rows df)) score)
    end.

(** What one weighted metric adds to the score of row [k]. *)
Definition score_term (df : DataFrame) (metric : string) (weight : R) (k : nat)
    : R :=
  match column_index metric (columns df) with
  | Some i =>
      match normalize metric (column_values df i) with
      | Ok normalized => nth k normalized 0 * weight
      | Raise _ => 0
      end
  | None => 0
  end.

(** The value of row [k] in the column [metric]. *)
Definition cell (df : DataFrame) (metric : string) (k : nat) : R :=
  match column_index metric (columns df) with
  | Some i => nth k (column_values df i) 0
  | None => 0
  end.

(** Two models measured on two metrics to be minimised and on R2. *)
Definition sample_frame : DataFrame :=
  {| columns := ["RMSE"%string; "MAE"%string; "R2"%string];
     rows := [("Last Observed (Control)"%string, [2; 1.5; 0.5]);
              ("LSTM (units=50)"%string, [1; 0.5; 0.9])] |}.

Definition sample_weights : list (string * R) :=
  [("RMSE"%string, 0.5); ("MAE"%string, 0.3); ("R2"%string, 0.2)].

End ModelComparator.

(** A small frame for the examples: four rows of a feature and a target. *)
Definition sample_data : list (list R) :=
  [[1; 10]; [2; 20]; [3; 30]; [4; 40]].

(** Ten samples as [create_sequences] leaves them, for the splitting examples. *)
Definition ten_samples : ModelEvaluator.ndarray :=
  ModelEvaluator.Arr1 [0; 1; 2; 3; 4; 5; 6; 7; 8; 9].

(** ** Sequences: lemmas *)

Section Sequences.
Context {A : Type}.

Lemma slice_last_length (n : nat) (l : list A) :
  length (slice_last n l) = Nat.min n (length l).
Proof.
  unfold slice_last. rewrite length_skipn. lia.
Qed.

Lemma slice_last_suffix (n : nat) (l : list A) :
  firstn (length l - n) l ++ slice_last n l = l.
Proof.
  unfold slice_last. apply firstn_skipn.
Qed.

Lemma slice_last_short (n : nat) (l : list A) :
  (length l <= n)%nat -> slice_last n l = l.
Proof.
  intros Hle. unfold slice_last.
  replace (length l - n)%nat with 0%nat by lia. reflexivity.
Qed.

Lemma slice_last_idem (n : nat) (l : list A) :
  slice_last n (slice_last n l) = slice_last n l.
Proof.
  apply slice_last_short. rewrite slice_last_length. lia.
Qed.

Lemma nth_error_last (l : list A) (d : A) :
  l <> [] -> nth_error l (length l - 1) = Some (last l d).
Proof.
  induction l as [|a [|b l'] IH]; intros Hne.
  - contradiction.
  - reflexivity.
  - specialize (IH ltac:(discriminate)).
    cbn [length] in *. replace (S (S (length l')) - 1)%nat with (S (length l')) by lia.
    replace (S (length l') - 1)%nat with (length l') in IH by lia.
    cbn [nth_error]. rewrite IH. reflexivity.
Qed.
End Sequences.

Lemma np_index_first (a : list R) :
  a <> [] -> np_index a 0 = Ok (nth 0 a 0).
Proof.
  destruct a as [|v a']; [contradiction|]. intros _.
  unfold np_index. cbn [length].
  replace (0 <? 0)%Z with false by reflexivity.
  replace ((0 <=? 0)%Z && (0 <? Z.of_nat (S (length a')))%Z) with true.
  - reflexivity.
  - symmetry. apply andb_true_intro. split; [reflexivity|]. apply Z.ltb_lt. lia.
Qed.

Lemma np_index_last (a : list R) :
  a <> [] -> np_index a (-1) = Ok (last a 0).
Proof.
  intros Hne. unfold np_index.
  assert (Hlen : (1 <= length a)%nat).
  { destruct a; [contradiction|cbn; lia]. }
  replace (-1 <? 0)%Z with true by reflexivity.
  replace ((0 <=? -1 + Z.of_nat (length a))%Z
           && (-1 + Z.of_nat (length a) <? Z.of_nat (length a))%Z) with true.
  - replace (Z.to_nat (-1 + Z.of_nat (length a))) with (length a - 1)%nat by lia.
    rewrite (nth_error_last a 0 Hne). reflexivity.
  - symmetry. apply andb_true_intro. split; [apply Z.leb_le|apply Z.ltb_lt]; lia.
Qed.

Lemma np_index_empty (i : Z) :
  exists e, np_index [] i = Raise e.
Proof.
  unfold np_index. cbn [length].
  destruct ((0 <=? (if (i <? 0)%Z then (i + Z.of_nat 0)%Z else i))%Z
            && ((if (i <? 0)%Z then (i + Z.of_nat 0)%Z else i) <? Z.of_nat 0)%Z) eqn:E.
  - apply andb_prop in E. destruct E as [E1 E2].
    apply Z.leb_le in E1. apply Z.ltb_lt in E2. lia.
  - eexists; reflexivity.
Qed.

(** ** The gate (lines 27-43) *)

Lemma window_length (self : AirFlowCalculator) :
  length (window self) = Nat.min 10 (length (CO_history self)).
Proof. apply slice_last_length. Qed.

Lemma window_nonempty (self : AirFlowCalculator) :
  (2 <= length (CO_history self))%nat -> map snd (window self) <> [].
Proof.
  intros Hlen Hnil. apply (f_equal (@length R)) in Hnil.
  rewrite length_map, window_length in Hnil. cbn [length] in Hnil. lia.
Qed.

Lemma gate_short (self : AirFlowCalculator) :
  (length (CO_history self) < 2)%nat -> gate self = Return (Ok None).
Proof.
  intros Hlt. unfold gate.
  apply Nat.ltb_lt in Hlt. rewrite Hlt. reflexivity.
Qed.

Lemma gate_long (self : AirFlowCalculator) :
  (2 <= length (CO_history self))%nat ->
  gate self =
    if Rle_dec (first_CO (window self)) (last_CO (window self))
    then Return (Ok None)
    else Proceed (window self).
Proof.
  intros Hlen. unfold gate.
  replace (length (CO_history self) <? 2)%nat with false
    by (symmetry; apply Nat.ltb_ge; exact Hlen).
  fold (window self). cbv zeta.
  rewrite (np_index_first _ (window_nonempty self Hlen)).
  rewrite (np_index_last _ (window_nonempty self Hlen)).
  reflexivity.
Qed.

Lemma gate_not_decaying (self : AirFlowCalculator) :
  (2 <= length (CO_history self))%nat ->
  first_CO (window self) <= last_CO (window self) ->
  gate self = Return (Ok None).
Proof.
  intros Hlen Hle. rewrite (gate_long self Hlen).
  destruct (Rle_dec _ _) as [_|Hn]; [reflexivity|contradiction].
Qed.

Lemma gate_decaying (self : AirFlowCalculator) :
  (2 <= length (CO_history self))%nat ->
  last_CO (window self) < first_CO (window self) ->
  gate self = Proceed (window self).
Proof.
  intros Hlen Hlt. rewrite (gate_long self Hlen).
  destruct (Rle_dec _ _) as [Hle|_]; [lra|reflexivity].
Qed.

(** The gate lets a window through only in one way. *)
Lemma gate_Proceed_inv (self : AirFlowCalculator) (recent_data : list (R * R)) :
  gate self = Proceed recent_data ->
  (2 <= length (CO_history self))%nat /\
  recent_data = window self /\
  last_CO recent_data < first_CO recent_data.
Proof.
  intros Hg.
  destruct (Nat.lt_ge_cases (length (CO_history self)) 2) as [Hlt|Hge].
  - rewrite (gate_short self Hlt) in Hg. discriminate.
  - rewrite (gate_long self Hge) in Hg.
    destruct (Rle_dec _ _) as [Hle|Hn]; [discriminate|].
    injection Hg as <-. repeat split; [exact Hge|lra].
Qed.

(** The gate never raises. *)
Lemma gate_cases (self : AirFlowCalculator) :
  gate self = Return (Ok None) \/ gate self = Proceed (window self).
Proof.
  destruct (Nat.lt_ge_cases (length (CO_history self)) 2) as [Hlt|Hge].
  - left. apply gate_short, Hlt.
  - rewrite (gate_long self Hge). destruct (Rle_dec _ _); auto.
Qed.

(** ** The [try] block (lines 45-99) *)

Section Engine.
Variable curve_fit : fitter.
Variable self : AirFlowCalculator.

Lemma fit_call_nonempty (recent_data : list (R * R)) :
  recent_data <> [] ->
  fit_call curve_fit recent_data =
    curve_fit (decay (map fst recent_data)) (map fst recent_data)
      (map snd recent_data) (first_CO recent_data, 0.001).
Proof.
  intros Hne. unfold fit_call. cbv zeta.
  rewrite np_index_first; [reflexivity|].
  destruct recent_data; [contradiction|discriminate].
Qed.

Lemma fit_and_derive_ok (recent_data : list (R * R)) (C0_fit lambda_per_sec : R) :
  fit_call curve_fit recent_data = Ok (C0_fit, lambda_per_sec) ->
  fit_and_derive curve_fit self recent_data =
    Ok (Some (estimate_of self recent_data lambda_per_sec)).
Proof.
  intros Hfit. unfold fit_and_derive. rewrite Hfit. reflexivity.
Qed.

Lemma fit_and_derive_raise (recent_data : list (R * R)) (e : py_exception) :
  fit_call curve_fit recent_data = Raise e ->
  fit_and_derive curve_fit self recent_data = Ok None.
Proof.
  intros Hfit. unfold fit_and_derive. rewrite Hfit. reflexivity.
Qed.

(** A returned estimate comes from a returned fit. *)
Lemma fit_and_derive_Some_inv (recent_data : list (R * R)) (est : AirflowEstimate) :
  fit_and_derive curve_fit self recent_data = Ok (Some est) ->
  exists C0_fit lambda_per_sec,
    fit_call curve_fit recent_data = Ok (C0_fit, lambda_per_sec) /\
    est = estimate_of self recent_data lambda_per_sec.
Proof.
  intros H. destruct (fit_call curve_fit recent_data) as [[C0 lam]|e] eqn:Hfit.
  - rewrite (fit_and_derive_ok _ _ _ Hfit) in H.
    injection H as <-. exists C0, lam. split; reflexivity.
  - rewrite (fit_and_derive_raise _ _ Hfit) in H. discriminate.
Qed.

Lemma calculate_airflow_Some_inv (est : AirflowEstimate) :
  calculate_airflow curve_fit self = Ok (Some est) ->
  (2 <= length (CO_history self))%nat /\
  last_CO (window self) < first_CO (window self) /\
  exists C0_fit lambda_per_sec,
    fit_call curve_fit (window self) = Ok (C0_fit, lambda_per_sec) /\
    est = estimate_of self (window self) lambda_per_sec.
Proof.
  unfold calculate_airflow. intros H.
  destruct (gate self) as [v|recent_data] eqn:Hg.
  - destruct (gate_cases self) as [Hc|Hc]; rewrite Hc in Hg; [|discriminate].
    injection Hg as <-. discriminate.
  - destruct (gate_Proceed_inv _ _ Hg) as (Hlen & -> & Hdec).
    repeat split; [exact Hlen|exact Hdec|].
    apply fit_and_derive_Some_inv, H.
Qed.

Lemma calculate_airflow_fitted (C0_fit lambda_per_sec : R) :
  (2 <= length (CO_history self))%nat ->
  last_CO (window self) < first_CO (window self) ->
  fit_call curve_fit (window self) = Ok (C0_fit, lambda_per_sec) ->
  calculate_airflow curve_fit self =
    Ok (Some (estimate_of self (window self) lambda_per_sec)).
Proof.
  intros Hlen Hdec Hfit. unfold calculate_airflow.
  rewrite (gate_decaying self Hlen Hdec).
  apply (fit_and_derive_ok _ _ _ Hfit).
Qed.
End Engine.

(** ** Numeric lemmas *)

Lemma py_pow_math_e (y : R) : py_pow math_e y = exp y.
Proof.
  unfold py_pow, math_e, Rpower. rewrite ln_exp. f_equal. ring.
Qed.

Lemma sigmoid_exp (x : R) : sigmoid x = 1 / (1 + exp (- x)).
Proof.
  unfold sigmoid. rewrite py_pow_math_e. reflexivity.
Qed.

Lemma sigmoid_bounds (x : R) : 0 < sigmoid x < 1.
Proof.
  rewrite sigmoid_exp. pose proof (exp_pos (- x)) as He.
  assert (Hd : 0 < 1 + exp (- x)) by lra.
  split.
  - apply Rdiv_lt_0_compat; lra.
  - apply (Rmult_lt_reg_r (1 + exp (- x))); [exact Hd|].
    unfold Rdiv. rewrite Rmult_assoc, Rinv_l by lra. lra.
Qed.

(** For large arguments the sigmoid is within half a hundredth of 1. *)
Lemma sigmoid_near_one (x : R) : 28 <= x -> 0.995 < sigmoid x.
Proof.
  intros Hx. rewrite sigmoid_exp.
  assert (Hhalf : 15 <= exp (x / 2)).
  { pose proof (exp_ineq1_le (x / 2)). lra. }
  assert (Hbig : 225 <= exp x).
  { replace x with (x / 2 + x / 2) by field. rewrite exp_plus. nra. }
  assert (Hinv : exp (- x) * exp x = 1).
  { rewrite <- exp_plus. replace (- x + x) with 0 by ring. apply exp_0. }
  pose proof (exp_pos (- x)) as Hpos.
  assert (Hsmall : exp (- x) < 1 / 199) by nra.
  assert (Hs : 1 / (1 + exp (- x)) * (1 + exp (- x)) = 1) by (field; lra).
  nra.
Qed.

Lemma round_half_even_nearest (x : R) (n : Z) :
  IZR n - 1 / 2 < x < IZR n + 1 / 2 -> round_half_even x = n.
Proof.
  intros [Hlo Hhi]. unfold round_half_even.
  destruct (Rle_lt_dec (IZR n) x) as [Hge|Hlt].
  - rewrite (Zfloor_eq n x) by lra.
    destruct (Rlt_dec (x - IZR n) (1 / 2)) as [_|Hn]; [reflexivity|lra].
  - rewrite (Zfloor_eq (n - 1) x) by (rewrite minus_IZR; lra).
    rewrite minus_IZR.
    destruct (Rlt_dec (x - (IZR n - 1)) (1 / 2)) as [Hd|_]; [lra|].
    destruct (Rlt_dec (1 / 2) (x - (IZR n - 1))) as [_|Hn]; [lia|lra].
Qed.

Lemma round_half_even_between (x : R) (a b : Z) :
  IZR a <= x <= IZR b -> (a <= round_half_even x <= b)%Z.
Proof.
  intros [Ha Hb].
  pose proof (Zfloor_bound x) as [Hf1 Hf2].
  pose proof (Zfloor_lub a x Ha) as Haf.
  assert (Hfb : (Zfloor x <= b)%Z).
  { apply le_IZR. lra. }
  unfold round_half_even.
  destruct (Rlt_dec (x - IZR (Zfloor x)) (1 / 2)) as [Hd|Hd]; [lia|].
  assert (Hne : Zfloor x <> b).
  { intros Heq. rewrite Heq in Hd. lra. }
  destruct (Rlt_dec (1 / 2) (x - IZR (Zfloor x))); [lia|].
  destruct (Z.even (Zfloor x)); lia.
Qed.

Lemma py_round_2_unit_interval (x : R) :
  0 <= x <= 1 -> 0 <= py_round x 2 <= 1.
Proof.
  intros [H0 H1]. unfold py_round.
  replace (10 ^ 2) with 100 by (simpl; ring).
  pose proof (round_half_even_between (x * 100) 0 100 ltac:(lra)) as [Hlo Hhi].
  apply IZR_le in Hlo, Hhi.
  split.
  - apply Rmult_le_reg_r with 100; [lra|].
    unfold Rdiv. rewrite Rmult_assoc, Rinv_l by lra. lra.
  - apply Rmult_le_reg_r with 100; [lra|].
    unfold Rdiv. rewrite Rmult_assoc, Rinv_l by lra. lra.
Qed.

Lemma py_round_2_near_one (x : R) :
  0.995 < x < 1.005 -> py_round x 2 = 1.
Proof.
  intros Hx. unfold py_round.
  replace (10 ^ 2) with 100 by (simpl; ring).
  rewrite (round_half_even_nearest (x * 100) 100) by lra.
  field.
Qed.

Lemma sigmoid_saturates (x : R) : 28 <= x -> py_round (sigmoid x) 2 = 1.
Proof.
  intros Hx. apply py_round_2_near_one.
  pose proof (sigmoid_near_one x Hx). pose proof (sigmoid_bounds x). lra.
Qed.

(** ** The sample fitters *)

(** The parameters [two_point_fit] returns leave no residual, so they are a
    least-squares solution for the model [decay]. *)
Lemma two_point_fit_exact (x0 x1 y0 y1 : R) :
  x0 <> x1 -> 0 < y0 -> 0 < y1 ->
  sum_sq_residuals (decay [x0; x1]) [x0; x1] [y0; y1]
    y0 (ln (y0 / y1) / (x1 - x0)) = 0.
Proof.
  intros Hx Hy0 Hy1.
  unfold sum_sq_residuals, decay. cbn [combine fold_right fst snd nth].
  replace (- (ln (y0 / y1) / (x1 - x0)) * (x0 - x0)) with 0 by (field; lra).
  replace (- (ln (y0 / y1) / (x1 - x0)) * (x1 - x0)) with (- ln (y0 / y1))
    by (field; lra).
  rewrite exp_0, exp_Ropp, exp_ln by (apply Rdiv_lt_0_compat; lra).
  replace (y0 * / (y0 / y1)) with y1 by (field; lra).
  ring.
Qed.

Lemma sum_sq_residuals_nonneg (f : R -> R -> R -> R) (xdata ydata : list R)
    (C0 lambd : R) :
  0 <= sum_sq_residuals f xdata ydata C0 lambd.
Proof.
  unfold sum_sq_residuals.
  induction (combine xdata ydata) as [|xy l IH]; cbn [fold_right]; [lra|].
  pose proof (pow2_ge_0 (f (fst xy) C0 lambd - snd xy)). lra.
Qed.

(** ** Evaluating the sample logs *)

Ltac eval_room :=
  cbv [demo_room one_sample_room flat_room two_sample_room reversed_room
       long_room record_all fold_left add_measurement __init__ CO_history
       room_volume window slice_last first_CO last_CO bucket app length skipn
       map fst snd last nth Nat.sub Nat.leb].

Lemma reversed_room_fit :
  fit_call two_point_fit (window reversed_room) =
    Ok (400, ln (400 / 300) / (0 - 10)).
Proof. reflexivity. Qed.

Lemma reversed_room_lambda : ln (400 / 300) / (0 - 10) < 0.
Proof.
  assert (Hln : 0 < ln (400 / 300)).
  { rewrite <- ln_1. apply ln_increasing; lra. }
  replace (ln (400 / 300) / (0 - 10)) with (- (ln (400 / 300) / 10)) by (field; lra).
  assert (0 < ln (400 / 300) / 10) by (apply Rdiv_lt_0_compat; lra).
  lra.
Qed.

Lemma two_sample_room_fit :
  fit_call two_point_fit (window two_sample_room) =
    Ok (400, ln (400 / 380) / (30 - 0)).
Proof. reflexivity. Qed.

Example window_of_long_room :
  window long_room =
    [(60, 460); (90, 440); (120, 420); (150, 400); (180, 380); (210, 360);
     (240, 340); (270, 320); (300, 300); (330, 280)].
Proof. reflexivity. Qed.

Example window_of_demo_room : window demo_room = CO_history demo_room.
Proof. reflexivity. Qed.

Example one_sample_room_returns_None (curve_fit : fitter) :
  calculate_airflow curve_fit one_sample_room = Ok None.
Proof. reflexivity. Qed.

Lemma demo_room_gate : gate demo_room = Proceed (window demo_room).
Proof.
  apply gate_decaying; eval_room; [lia|lra].
Qed.

(** ** Claims *)

(** C1, as stated, fails: the room [reversed_room] passes the gate (400 > 300),
    the exact fit through its two samples has a negative decay constant, and
    [calculate_airflow] still returns an estimate, whose ACH and airflows are
    negative. *)
Lemma negative_lambda_is_reported :
  exists C0_fit lambda_per_sec est,
    fit_call two_point_fit (window reversed_room) = Ok (C0_fit, lambda_per_sec) /\
    sum_sq_residuals (decay [10; 0]) [10; 0] [400; 300] C0_fit lambda_per_sec = 0 /\
    lambda_per_sec <= 0 /\
    calculate_airflow two_point_fit reversed_room = Ok (Some est) /\
    ACH est < 0 /\ airflow_m3h est < 0 /\ airflow_CFM est < 0.
Proof.
  exists 400, (ln (400 / 300) / (0 - 10)).
  exists (estimate_of reversed_room (window reversed_room) (ln (400 / 300) / (0 - 10))).
  pose proof reversed_room_lambda as Hlam.
  split; [exact reversed_room_fit|].
  split; [apply two_point_fit_exact; lra|].
  split; [lra|].
  split.
  - apply (calculate_airflow_fitted _ _ 400).
    + eval_room. lia.
    + eval_room. lra.
    + exact reversed_room_fit.
  - cbn [estimate_of ACH airflow_m3h airflow_CFM].
    replace (room_volume reversed_room) with 48 by reflexivity.
    repeat split; lra.
Qed.

(** C1, amended: [calculate_airflow] does not look at the sign of the fitted
    decay constant.  Whenever the window passes the gate and the fit returns
    [(C0_fit, lambda_per_sec)], an estimate is returned with
    [ACH = lambda_per_sec * 3600]; its ACH is strictly positive exactly when
    [lambda_per_sec] is, and so are both airflows when the room volume is
    strictly positive. *)
Theorem lambda_sign_carries_over (curve_fit : fitter) (self : AirFlowCalculator)
    (C0_fit lambda_per_sec : R) :
  (2 <= length (CO_history self))%nat ->
  last_CO (window self) < first_CO (window self) ->
  fit_call curve_fit (window self) = Ok (C0_fit, lambda_per_sec) ->
  exists est,
    calculate_airflow curve_fit self = Ok (Some est) /\
    ACH est = lambda_per_sec * 3600 /\
    (0 < ACH est <-> 0 < lambda_per_sec) /\
    (0 < room_volume self ->
     (0 < airflow_m3h est <-> 0 < lambda_per_sec) /\
     (0 < airflow_CFM est <-> 0 < lambda_per_sec)).
Proof.
  intros Hlen Hdec Hfit.
  exists (estimate_of self (window self) lambda_per_sec).
  split; [apply (calculate_airflow_fitted _ _ C0_fit); assumption|].
  cbn [estimate_of ACH airflow_m3h airflow_CFM].
  split; [reflexivity|].
  split; [split; intros; lra|].
  intros Hvol. split; split; intros H; nra.
Qed.

Lemma lambda_sign_carries_over_two_samples :
  exists est,
    calculate_airflow two_point_fit two_sample_room = Ok (Some est) /\
    ACH est = ln (400 / 380) / (30 - 0) * 3600 /\
    (0 < ACH est <-> 0 < ln (400 / 380) / (30 - 0)) /\
    (0 < room_volume two_sample_room ->
     (0 < airflow_m3h est <-> 0 < ln (400 / 380) / (30 - 0)) /\
     (0 < airflow_CFM est <-> 0 < ln (400 / 380) / (30 - 0))).
Proof.
  apply (lambda_sign_carries_over two_point_fit two_sample_room 400).
  - eval_room. lia.
  - eval_room. lra.
  - reflexivity.
Defined.

(** C2, as stated, fails: a log that is too short, a flat window and a failed
    fit all hand the caller the same value [None], so no reading of the
    returned value can tell [InsufficientData] from [NotDecaying] (or from
    [FitFailed]). *)
Lemma no_reason_reaches_the_caller :
  calculate_airflow failing_fit one_sample_room = Ok None /\
  calculate_airflow failing_fit flat_room = Ok None /\
  calculate_airflow failing_fit demo_room = Ok None /\
  forall reason_of : outcome (option AirflowEstimate) -> no_result_reason,
    ~ (reason_of (calculate_airflow failing_fit one_sample_room) = InsufficientData /\
       reason_of (calculate_airflow failing_fit flat_room) = NotDecaying).
Proof.
  assert (H1 : calculate_airflow failing_fit one_sample_room = Ok None) by reflexivity.
  assert (H2 : calculate_airflow failing_fit flat_room = Ok None).
  { unfold calculate_airflow. rewrite gate_not_decaying; [reflexivity| |].
    - eval_room. lia.
    - eval_room. lra. }
  assert (H3 : calculate_airflow failing_fit demo_room = Ok None).
  { unfold calculate_airflow. rewrite demo_room_gate. reflexivity. }
  repeat split; try assumption.
  intros reason_of [Ha Hb]. rewrite H1 in Ha. rewrite H2 in Hb. congruence.
Qed.

(** C2, amended: a log with fewer than 2 measurements makes
    [calculate_airflow] return [None]; every failing call returns that same
    bare [None], with no reason tag, and it does so exactly when the log has
    fewer than 2 measurements, or the window's first concentration is not above
    its last, or the fit raised.  No call raises. *)
Theorem failure_is_bare_None (curve_fit : fitter) (self : AirFlowCalculator) :
  ((length (CO_history self) < 2)%nat ->
   calculate_airflow curve_fit self = Ok None) /\
  (calculate_airflow curve_fit self = Ok None <->
   (length (CO_history self) < 2)%nat \/
   ((2 <= length (CO_history self))%nat /\
    first_CO (window self) <= last_CO (window self)) \/
   ((2 <= length (CO_history self))%nat /\
    last_CO (window self) < first_CO (window self) /\
    exists e, fit_call curve_fit (window self) = Raise e)) /\
  (forall e, calculate_airflow curve_fit self <> Raise e).
Proof.
  assert (Hshort : (length (CO_history self) < 2)%nat ->
                   calculate_airflow curve_fit self = Ok None).
  { intros Hlt. unfold calculate_airflow. rewrite (gate_short self Hlt). reflexivity. }
  assert (Hflat : (2 <= length (CO_history self))%nat ->
                  first_CO (window self) <= last_CO (window self) ->
                  calculate_airflow curve_fit self = Ok None).
  { intros Hlen Hle. unfold calculate_airflow.
    rewrite (gate_not_decaying self Hlen Hle). reflexivity. }
  split; [exact Hshort|]. split; [split|].
  - intros Hnone.
    destruct (Nat.lt_ge_cases (length (CO_history self)) 2) as [Hlt|Hge]; [auto|].
    destruct (Rle_lt_dec (first_CO (window self)) (last_CO (window self))) as [Hle|Hdec];
      [auto|].
    right; right. repeat split; try assumption.
    destruct (fit_call curve_fit (window self)) as [[C0 lam]|e] eqn:Hfit.
    + rewrite (calculate_airflow_fitted _ _ _ _ Hge Hdec Hfit) in Hnone. discriminate.
    + exists e. reflexivity.
  - intros [Hlt|[[Hlen Hle]|(Hlen & Hdec & e & Hfit)]]; [auto|auto|].
    unfold calculate_airflow. rewrite (gate_decaying self Hlen Hdec).
    apply (fit_and_derive_raise _ _ _ _ Hfit).
  - intros e. unfold calculate_airflow.
    destruct (gate_cases self) as [Hg|Hg]; rewrite Hg; [discriminate|].
    unfold fit_and_derive.
    destruct (fit_call curve_fit (window self)) as [[C0 lam]|e']; discriminate.
Qed.

Lemma failure_is_bare_None_one_sample :
  calculate_airflow two_point_fit one_sample_room = Ok None.
Proof.
  apply (proj1 (failure_is_bare_None two_point_fit one_sample_room)).
  eval_room. lia.
Defined.

Lemma flat_room_returns_None (curve_fit : fitter) :
  calculate_airflow curve_fit flat_room = Ok None.
Proof.
  unfold calculate_airflow. rewrite gate_not_decaying; [reflexivity| |].
  - eval_room. lia.
  - eval_room. lra.
Qed.

Lemma demo_room_raise_returns_None (curve_fit : fitter) (e : py_exception) :
  fit_call curve_fit (window demo_room) = Raise e ->
  calculate_airflow curve_fit demo_room = Ok None.
Proof.
  intros Hfit. unfold calculate_airflow. rewrite demo_room_gate.
  apply (fit_and_derive_raise _ _ _ _ Hfit).
Qed.

(** C3, as stated, fails: on the flat window of [flat_room] the call returns
    [None], the very value it returns when the fit fails on [demo_room], so
    the returned value does not carry the reason NotDecaying: nothing read off
    it can say NotDecaying here and FitFailed there. *)
Lemma not_decaying_is_untagged :
  calculate_airflow failing_fit flat_room = Ok None /\
  calculate_airflow failing_fit flat_room = calculate_airflow failing_fit demo_room /\
  forall (reason_of : outcome (option AirflowEstimate) -> no_result_reason)
         (detail : string),
    ~ (reason_of (calculate_airflow failing_fit flat_room) = NotDecaying /\
       reason_of (calculate_airflow failing_fit demo_room) = FitFailed detail).
Proof.
  pose proof (flat_room_returns_None failing_fit) as H1.
  pose proof (demo_room_raise_returns_None failing_fit _ eq_refl) as H2.
  split; [exact H1|]. split; [rewrite H1, H2; reflexivity|].
  intros reason_of detail [Ha Hb]. rewrite H1 in Ha. rewrite H2 in Hb. congruence.
Qed.

(** C3, amended: with at least 2 measurements, a window whose first
    concentration is not above its last makes [calculate_airflow] return the
    bare [None] at the gate, before the [try] block and whatever the fitter,
    so no fit is attempted; the value carries no reason tag.  The gate lets
    the window through to the fit exactly when the first concentration is
    strictly above the last. *)
Theorem not_decaying_returns_None (curve_fit : fitter) (self : AirFlowCalculator) :
  (2 <= length (CO_history self))%nat ->
  (first_CO (window self) <= last_CO (window self) ->
   gate self = Return (Ok None) /\
   calculate_airflow curve_fit self = Ok None) /\
  (gate self = Proceed (window self) <->
   last_CO (window self) < first_CO (window self)).
Proof.
  intros Hlen. split.
  - intros Hle. pose proof (gate_not_decaying self Hlen Hle) as Hg.
    split; [exact Hg|]. unfold calculate_airflow. rewrite Hg. reflexivity.
  - split.
    + intros Hg. apply gate_Proceed_inv in Hg. tauto.
    + apply gate_decaying, Hlen.
Qed.

Lemma not_decaying_returns_None_flat :
  gate flat_room = Return (Ok None) /\
  calculate_airflow (const_fit 400 0.001) flat_room = Ok None.
Proof.
  apply (not_decaying_returns_None (const_fit 400 0.001) flat_room).
  - eval_room. lia.
  - eval_room. lra.
Defined.

(** C5: the window is the last [min 10 (length log)] measurements of the log,
    in insertion order: the log is some older entries followed by the window.
    It is the whole log when that has at most 10 entries, and never more than
    10 entries.  The window is all a call reads of the log, and the call gives
    the same result on the window alone.  When the log has at least 2 entries
    and the window is net decreasing, the gate proceeds with the window, the
    fitter is called on exactly the timestamps and the concentrations of the
    window, and the call returns the estimate built from what the fitter
    returns there, or [None] when it raises. *)
Theorem window_is_latest_ten (curve_fit : fitter) (self : AirFlowCalculator) :
  (exists older, CO_history self = older ++ window self) /\
  length (window self) = Nat.min 10 (length (CO_history self)) /\
  (length (window self) <= 10)%nat /\
  ((length (CO_history self) <= 10)%nat -> window self = CO_history self) /\
  (forall recent_data, gate self = Proceed recent_data ->
     recent_data = window self /\
     fit_call curve_fit recent_data =
       curve_fit (decay (map fst recent_data)) (map fst recent_data)
         (map snd recent_data) (first_CO recent_data, 0.001)) /\
  calculate_airflow curve_fit self =
    calculate_airflow curve_fit
      {| room_volume := room_volume self; CO_history := window self |} /\
  ((2 <= length (CO_history self))%nat ->
   last_CO (window self) < first_CO (window self) ->
   gate self = Proceed (window self) /\
   calculate_airflow curve_fit self =
     match curve_fit (decay (map fst (window self))) (map fst (window self))
             (map snd (window self)) (first_CO (window self), 0.001) with
     | Ok (C0_fit, lambda_per_sec) =>
         Ok (Some (estimate_of self (window self) lambda_per_sec))
     | Raise _ => Ok None
     end).
Proof.
  pose proof (window_length self) as Hlen.
  split; [|split; [|split; [|split; [|split; [|split]]]]].
  - exists (firstn (length (CO_history self) - 10) (CO_history self)).
    symmetry. apply slice_last_suffix.
  - exact Hlen.
  - lia.
  - apply slice_last_short.
  - intros recent_data Hg.
    destruct (gate_Proceed_inv _ _ Hg) as (Hge & -> & _).
    split; [reflexivity|]. apply fit_call_nonempty.
    intros Hnil. rewrite Hnil in Hlen. cbn [length] in Hlen. lia.
  - set (self' := {| room_volume := room_volume self; CO_history := window self |}).
    assert (Hw : window self' = window self) by apply slice_last_idem.
    assert (Hl : length (CO_history self') = Nat.min 10 (length (CO_history self)))
      by exact Hlen.
    unfold calculate_airflow.
    destruct (Nat.lt_ge_cases (length (CO_history self)) 2) as [Hlt|Hge].
    + rewrite (gate_short self Hlt), (gate_short self') by lia. reflexivity.
    + rewrite (gate_long self Hge), (gate_long self') by lia. rewrite Hw.
      destruct (Rle_dec _ _); reflexivity.
  - intros Hge Hdec.
    pose proof (gate_decaying self Hge Hdec) as Hg.
    split; [exact Hg|].
    unfold calculate_airflow. rewrite Hg. unfold fit_and_derive.
    rewrite fit_call_nonempty
      by (intros Hnil; rewrite Hnil in Hlen; cbn [length] in Hlen; lia).
    destruct (curve_fit _ _ _ _) as [[C0_fit lambda_per_sec]|e]; reflexivity.
Qed.

(** On a log of twelve samples the fit sees the last ten: the exponential
    through the ends of what the fitter is given runs from (60, 460) to
    (330, 280), not from the first sample of the log. *)
Lemma window_is_latest_ten_long :
  gate long_room = Proceed (window long_room) /\
  calculate_airflow endpoint_fit long_room =
    Ok (Some (estimate_of long_room
                [(60, 460); (90, 440); (120, 420); (150, 400); (180, 380);
                 (210, 360); (240, 340); (270, 320); (300, 300); (330, 280)]
                (ln (460 / 280) / (330 - 60)))).
Proof.
  destruct (window_is_latest_ten endpoint_fit long_room)
    as (_ & _ & _ & _ & _ & _ & Hfit).
  destruct Hfit as [Hg Hc].
  - eval_room. lia.
  - eval_room. lra.
  - split; [exact Hg|]. rewrite Hc. reflexivity.
Defined.

(** C6: a returned estimate is computed from the fitted decay constant and
    the room volume alone: [ACH = lambda_per_sec * 3600],
    [airflow_m3h = ACH * room_volume], [airflow_CFM = airflow_m3h * 0.588]. *)
Theorem airflow_derivation (curve_fit : fitter) (self : AirFlowCalculator)
    (est : AirflowEstimate) :
  calculate_airflow curve_fit self = Ok (Some est) ->
  exists C0_fit lambda_per_sec,
    fit_call curve_fit (window self) = Ok (C0_fit, lambda_per_sec) /\
    ACH est = lambda_per_sec * 3600 /\
    airflow_m3h est = ACH est * room_volume self /\
    airflow_CFM est = airflow_m3h est * 0.588.
Proof.
  intros H.
  destruct (calculate_airflow_Some_inv _ _ _ H) as (_ & _ & C0 & lam & Hfit & ->).
  exists C0, lam. split; [exact Hfit|].
  cbn [estimate_of ACH airflow_m3h airflow_CFM]. repeat split; reflexivity.
Qed.

Lemma airflow_derivation_two_samples :
  exists C0_fit lambda_per_sec,
    fit_call two_point_fit (window two_sample_room) = Ok (C0_fit, lambda_per_sec) /\
    ACH two_sample_estimate = lambda_per_sec * 3600 /\
    airflow_m3h two_sample_estimate =
      ACH two_sample_estimate * room_volume two_sample_room /\
    airflow_CFM two_sample_estimate = airflow_m3h two_sample_estimate * 0.588.
Proof.
  apply (airflow_derivation two_point_fit two_sample_room).
  apply (calculate_airflow_fitted _ _ 400).
  - eval_room. lia.
  - eval_room. lra.
  - reflexivity.
Defined.

(** ** Confidence *)

Lemma quant_confidence_formula (b : string) (nf vs occ : R) :
  quant_confidence b nf vs occ =
    py_round
      (1 / (1 + exp (- ((if String.eqb b "low" then 50 - 25 else 50 + 25)
                        + (nf * 3 + vs * 2 + occ * 15))))) 2.
Proof.
  unfold quant_confidence. cbv zeta. rewrite sigmoid_exp.
  unfold AirFlowInhibitorWeights.FURNITURE, AirFlowInhibitorWeights.NUM_FANS,
    AirFlowInhibitorWeights.RESIDENTIAL_CFM.
  reflexivity.
Qed.

Lemma quant_confidence_unit_interval (b : string) (nf vs occ : R) :
  0 <= quant_confidence b nf vs occ <= 1.
Proof.
  unfold quant_confidence. cbv zeta. apply py_round_2_unit_interval.
  match goal with |- 0 <= sigmoid ?x <= 1 => pose proof (sigmoid_bounds x) end.
  lra.
Qed.

Lemma bucket_high (recent_data : list (R * R)) :
  bucket recent_data = "high"%string <-> (5 <= length recent_data)%nat.
Proof.
  unfold bucket. destruct (5 <=? length recent_data)%nat eqn:E.
  - apply Nat.leb_le in E. tauto.
  - apply Nat.leb_gt in E. split; [discriminate|lia].
Qed.

Lemma bucket_low (recent_data : list (R * R)) :
  bucket recent_data = "low"%string <-> (length recent_data < 5)%nat.
Proof.
  unfold bucket. destruct (5 <=? length recent_data)%nat eqn:E.
  - apply Nat.leb_le in E. split; [discriminate|lia].
  - apply Nat.leb_gt in E. tauto.
Qed.

Lemma raw_score_low :
  quant_confidence "low" Constants.NUM_FURNITURE Constants.INDOOR_VENT_SPEED
    Constants.PEOPLE = py_round (sigmoid 104) 2.
Proof.
  unfold quant_confidence. cbv zeta. cbn [String.eqb Ascii.eqb Bool.eqb].
  f_equal. f_equal.
  unfold AirFlowInhibitorWeights.FURNITURE, AirFlowInhibitorWeights.NUM_FANS,
    AirFlowInhibitorWeights.RESIDENTIAL_CFM, Constants.NUM_FURNITURE,
    Constants.INDOOR_VENT_SPEED, Constants.PEOPLE.
  lra.
Qed.

Lemma raw_score_high :
  quant_confidence "high" Constants.NUM_FURNITURE Constants.INDOOR_VENT_SPEED
    Constants.PEOPLE = py_round (sigmoid 154) 2.
Proof.
  unfold quant_confidence. cbv zeta. cbn [String.eqb Ascii.eqb Bool.eqb].
  f_equal. f_equal.
  unfold AirFlowInhibitorWeights.FURNITURE, AirFlowInhibitorWeights.NUM_FANS,
    AirFlowInhibitorWeights.RESIDENTIAL_CFM, Constants.NUM_FURNITURE,
    Constants.INDOOR_VENT_SPEED, Constants.PEOPLE.
  lra.
Qed.

Lemma demo_room_estimate (C0 lambd : R) :
  calculate_airflow (const_fit C0 lambd) demo_room = Ok (Some (demo_estimate lambd)).
Proof.
  apply (calculate_airflow_fitted _ _ C0).
  - eval_room. lia.
  - eval_room. lra.
  - reflexivity.
Qed.

(** C7: [quant_confidence] starts from 50, subtracts 25 for the bucket "low"
    and adds 25 otherwise, adds
    [furniture * 3 + vent_speed * 2 + occupants * 15], and returns
    [1 / (1 + e ^ (- raw_score))] rounded to 2 decimal places.  The bucket of a
    call is "high" exactly when its window has at least 5 samples and "low"
    otherwise, and the confidence of a returned estimate is
    [quant_confidence] at that bucket and the module constants. *)
Theorem confidence_algorithm (curve_fit : fitter) (self : AirFlowCalculator)
    (est : AirflowEstimate) :
  calculate_airflow curve_fit self = Ok (Some est) ->
  (forall (b : string) (nf vs occ : R),
     quant_confidence b nf vs occ =
       py_round
         (1 / (1 + exp (- ((if String.eqb b "low" then 50 - 25 else 50 + 25)
                           + (nf * 3 + vs * 2 + occ * 15))))) 2) /\
  (bucket (window self) = "high"%string <-> (5 <= length (window self))%nat) /\
  (bucket (window self) = "low"%string <-> (length (window self) < 5)%nat) /\
  confidence est =
    quant_confidence (bucket (window self)) Constants.NUM_FURNITURE
      Constants.INDOOR_VENT_SPEED Constants.PEOPLE.
Proof.
  intros H.
  destruct (calculate_airflow_Some_inv _ _ _ H) as (_ & _ & C0 & lam & _ & ->).
  split; [exact quant_confidence_formula|].
  split; [apply bucket_high|].
  split; [apply bucket_low|].
  reflexivity.
Qed.

Lemma confidence_algorithm_demo :
  (forall (b : string) (nf vs occ : R),
     quant_confidence b nf vs occ =
       py_round
         (1 / (1 + exp (- ((if String.eqb b "low" then 50 - 25 else 50 + 25)
                           + (nf * 3 + vs * 2 + occ * 15))))) 2) /\
  (bucket (window demo_room) = "high"%string <-> (5 <= length (window demo_room))%nat) /\
  (bucket (window demo_room) = "low"%string <-> (length (window demo_room) < 5)%nat) /\
  confidence (demo_estimate 0.00163) =
    quant_confidence (bucket (window demo_room)) Constants.NUM_FURNITURE
      Constants.INDOOR_VENT_SPEED Constants.PEOPLE.
Proof.
  apply (confidence_algorithm (const_fit 400 0.00163) demo_room).
  apply demo_room_estimate.
Defined.

(** C8: the confidence of every returned estimate lies in [0, 1]; indeed the
    sigmoid of any score, rounded to 2 decimal places, lies in [0, 1]. *)
Theorem confidence_in_unit_interval (curve_fit : fitter) (self : AirFlowCalculator)
    (est : AirflowEstimate) :
  calculate_airflow curve_fit self = Ok (Some est) ->
  0 <= confidence est <= 1 /\
  (forall x : R, 0 < sigmoid x < 1 /\ 0 <= py_round (sigmoid x) 2 <= 1).
Proof.
  intros H.
  destruct (calculate_airflow_Some_inv _ _ _ H) as (_ & _ & C0 & lam & _ & ->).
  split.
  - cbn [estimate_of confidence]. apply quant_confidence_unit_interval.
  - intros x. pose proof (sigmoid_bounds x) as Hs.
    split; [exact Hs|]. apply py_round_2_unit_interval. lra.
Qed.

Lemma confidence_in_unit_interval_two_samples :
  0 <= confidence two_sample_estimate <= 1 /\
  (forall x : R, 0 < sigmoid x < 1 /\ 0 <= py_round (sigmoid x) 2 <= 1).
Proof.
  apply (confidence_in_unit_interval two_point_fit two_sample_room).
  apply (calculate_airflow_fitted _ _ 400).
  - eval_room. lia.
  - eval_room. lra.
  - reflexivity.
Defined.

(** C9, as stated, fails: a failed fit on [demo_room] returns [None] whatever
    exception was raised, and that is the value a log of one sample returns,
    so the returned value is not a FitFailed outcome: nothing read off it can
    say FitFailed here and InsufficientData there, and the exception is not
    in it. *)
Lemma fit_failure_is_untagged :
  calculate_airflow failing_fit demo_room = Ok None /\
  calculate_airflow rejecting_fit demo_room = calculate_airflow failing_fit demo_room /\
  calculate_airflow failing_fit demo_room = calculate_airflow failing_fit one_sample_room /\
  forall (reason_of : outcome (option AirflowEstimate) -> no_result_reason)
         (detail : string),
    ~ (reason_of (calculate_airflow failing_fit demo_room) = FitFailed detail /\
       reason_of (calculate_airflow failing_fit one_sample_room) = InsufficientData).
Proof.
  pose proof (demo_room_raise_returns_None failing_fit _ eq_refl) as H1.
  pose proof (demo_room_raise_returns_None rejecting_fit _ eq_refl) as H2.
  pose proof (one_sample_room_returns_None failing_fit) as H3.
  split; [exact H1|]. split; [rewrite H1, H2; reflexivity|].
  split; [rewrite H1, H3; reflexivity|].
  intros reason_of detail [Ha Hb]. rewrite H1 in Ha. rewrite H3 in Hb. congruence.
Qed.

(** C9, amended: no call of [calculate_airflow] raises, whatever the fitter
    does; and when the window has passed the gate and the fit raises, the
    call returns the bare [None], with neither a reason tag nor the exception,
    and no estimate. *)
Theorem fit_exception_becomes_None (curve_fit : fitter) (self : AirFlowCalculator)
    (e : py_exception) :
  gate self = Proceed (window self) ->
  fit_call curve_fit (window self) = Raise e ->
  calculate_airflow curve_fit self = Ok None /\
  (forall (any_fit : fitter) (any_self : AirFlowCalculator),
     exists v, calculate_airflow any_fit any_self = Ok v).
Proof.
  intros Hg Hfit. split.
  - unfold calculate_airflow. rewrite Hg.
    apply (fit_and_derive_raise _ _ _ _ Hfit).
  - intros any_fit any_self. unfold calculate_airflow.
    destruct (gate_cases any_self) as [Hc|Hc]; rewrite Hc.
    + exists None. reflexivity.
    + unfold fit_and_derive.
      destruct (fit_call any_fit (window any_self)) as [[C0 lam]|e'];
        eexists; reflexivity.
Qed.

Lemma fit_exception_becomes_None_demo :
  calculate_airflow failing_fit demo_room = Ok None /\
  (forall (any_fit : fitter) (any_self : AirFlowCalculator),
     exists v, calculate_airflow any_fit any_self = Ok v).
Proof.
  apply (fit_exception_becomes_None failing_fit demo_room
           (RuntimeError "Optimal parameters not found")).
  - exact demo_room_gate.
  - reflexivity.
Defined.

(** C10: every returned estimate has confidence exactly 1.  The score handed
    to the sigmoid is 104 for the bucket "low" and 154 for the bucket "high",
    both computed from module constants only, and the sigmoid of either rounds
    to 1; neither the room volume nor the measurements enter. *)
Theorem confidence_is_one (curve_fit : fitter) (self : AirFlowCalculator)
    (est : AirflowEstimate) :
  calculate_airflow curve_fit self = Ok (Some est) ->
  confidence est = 1 /\
  quant_confidence "low" Constants.NUM_FURNITURE Constants.INDOOR_VENT_SPEED
    Constants.PEOPLE = py_round (sigmoid 104) 2 /\
  quant_confidence "high" Constants.NUM_FURNITURE Constants.INDOOR_VENT_SPEED
    Constants.PEOPLE = py_round (sigmoid 154) 2 /\
  py_round (sigmoid 104) 2 = 1 /\
  py_round (sigmoid 154) 2 = 1.
Proof.
  intros H.
  destruct (calculate_airflow_Some_inv _ _ _ H) as (_ & _ & C0 & lam & _ & ->).
  assert (H104 : py_round (sigmoid 104) 2 = 1) by (apply sigmoid_saturates; lra).
  assert (H154 : py_round (sigmoid 154) 2 = 1) by (apply sigmoid_saturates; lra).
  split; [|auto using raw_score_low, raw_score_high].
  cbn [estimate_of confidence]. unfold bucket.
  destruct (5 <=? length (window self))%nat.
  - rewrite raw_score_high. exact H154.
  - rewrite raw_score_low. exact H104.
Qed.

Lemma confidence_is_one_demo :
  confidence (demo_estimate 0.00163) = 1 /\
  quant_confidence "low" Constants.NUM_FURNITURE Constants.INDOOR_VENT_SPEED
    Constants.PEOPLE = py_round (sigmoid 104) 2 /\
  quant_confidence "high" Constants.NUM_FURNITURE Constants.INDOOR_VENT_SPEED
    Constants.PEOPLE = py_round (sigmoid 154) 2 /\
  py_round (sigmoid 104) 2 = 1 /\
  py_round (sigmoid 154) 2 = 1.
Proof.
  apply (confidence_is_one (const_fit 400 0.00163) demo_room).
  apply demo_room_estimate.
Defined.

(** ** The measurement log *)

Lemma slice_last_snoc {A : Type} (n : nat) (l : list A) (x : A) :
  slice_last (S n) (l ++ [x]) = slice_last n l ++ [x].
Proof.
  unfold slice_last. rewrite length_app. cbn [length].
  replace (length l + 1 - S n)%nat with (length l - n)%nat by lia.
  rewrite skipn_app.
  replace (length l - n - length l)%nat with 0%nat by lia.
  reflexivity.
Qed.

Lemma slice_last_tl {A : Type} (n : nat) (l : list A) :
  (S n <= length l)%nat -> slice_last n l = tl (slice_last (S n) l).
Proof.
  intros Hlen. unfold slice_last.
  replace (length l - n)%nat with (S (length l - S n)) by lia.
  generalize (length l - S n)%nat as k. clear Hlen.
  intros k. revert l.
  induction k as [|k IH]; intros [|a l]; try reflexivity.
  cbn [skipn]. apply IH.
Qed.

Lemma last_CO_snoc (l : list (R * R)) (t c : R) : last_CO (l ++ [(t, c)]) = c.
Proof.
  unfold last_CO. rewrite map_app. cbn [map snd]. apply last_last.
Qed.

(** Recording a measurement appends it to the log and leaves the volume alone;
    the next window is the last 9 entries of the old log followed by the new
    sample, so the window grows until it holds 10 samples and from then on
    drops its oldest sample for each new one. *)
Theorem add_measurement_slides_window (self : AirFlowCalculator) (t c : R) :
  room_volume (add_measurement self t c) = room_volume self /\
  CO_history (add_measurement self t c) = CO_history self ++ [(t, c)] /\
  window (add_measurement self t c) = slice_last 9 (CO_history self) ++ [(t, c)] /\
  ((length (CO_history self) < 10)%nat ->
   window (add_measurement self t c) = window self ++ [(t, c)]) /\
  ((10 <= length (CO_history self))%nat ->
   window (add_measurement self t c) = tl (window self) ++ [(t, c)]) /\
  last_CO (window (add_measurement self t c)) = c.
Proof.
  assert (Hw : window (add_measurement self t c) =
               slice_last 9 (CO_history self) ++ [(t, c)]).
  { unfold window, add_measurement. cbn [CO_history]. apply slice_last_snoc. }
  split; [reflexivity|]. split; [reflexivity|]. split; [exact Hw|].
  split; [|split].
  - intros Hlt. rewrite Hw. unfold window.
    rewrite !slice_last_short by lia. reflexivity.
  - intros Hge. rewrite Hw. unfold window.
    rewrite (slice_last_tl 9) by lia. reflexivity.
  - rewrite Hw. apply last_CO_snoc.
Qed.

Lemma add_measurement_slides_window_long :
  window (add_measurement long_room 360 260) =
    tl (window long_room) ++ [(360, 260)].
Proof.
  apply (add_measurement_slides_window long_room 360 260).
  eval_room. lia.
Defined.

(** A reading that is not below the oldest concentration of the window it
    joins stops the calculation: the call returns [None] whatever lies in
    between and whatever the fitter would do. *)
Theorem rising_reading_gives_None (curve_fit : fitter) (self : AirFlowCalculator)
    (t c : R) :
  (1 <= length (CO_history self))%nat ->
  first_CO (window (add_measurement self t c)) <= c ->
  calculate_airflow curve_fit (add_measurement self t c) = Ok None.
Proof.
  intros Hlen Hle. unfold calculate_airflow.
  rewrite gate_not_decaying; [reflexivity| |].
  - unfold add_measurement. cbn [CO_history]. rewrite length_app. cbn [length]. lia.
  - unfold window, add_measurement in *. cbn [CO_history] in *.
    rewrite slice_last_snoc in *. rewrite last_CO_snoc. exact Hle.
Qed.

Lemma rising_reading_gives_None_demo :
  calculate_airflow (const_fit 400 0.00163) (add_measurement demo_room 180 400)
    = Ok None.
Proof.
  apply (rising_reading_gives_None (const_fit 400 0.00163) demo_room 180 400).
  - eval_room. lia.
  - eval_room. lra.
Defined.

(** ** The decay model and exact fits *)

Lemma decay_first_time (recent_data : list (R * R)) (t C0 lambd : R) :
  decay (map fst recent_data) t C0 lambd =
    C0 * exp (- lambd * (t - first_time recent_data)).
Proof. reflexivity. Qed.

Lemma combine_fst_snd {A B : Type} (l : list (A * B)) :
  combine (map fst l) (map snd l) = l.
Proof.
  induction l as [|[a b] l IH]; [reflexivity|].
  cbn [map combine fst snd]. rewrite IH. reflexivity.
Qed.

Lemma sum_sq_zero_each (f : R -> R -> R -> R) (xdata ydata : list R)
    (C0 lambd : R) :
  sum_sq_residuals f xdata ydata C0 lambd = 0 ->
  forall x y, In (x, y) (combine xdata ydata) -> f x C0 lambd = y.
Proof.
  unfold sum_sq_residuals.
  induction (combine xdata ydata) as [|xy l IH]; cbn [fold_right In];
    intros Hsum x y Hin; [contradiction|].
  set (rest := fold_right
                 (fun xy acc => (f (fst xy) C0 lambd - snd xy) ^ 2 + acc) 0 l) in *.
  assert (Hrest : 0 <= rest).
  { subst rest. clear. induction l as [|p l IHl]; cbn [fold_right]; [lra|].
    pose proof (pow2_ge_0 (f (fst p) C0 lambd - snd p)). lra. }
  pose proof (pow2_ge_0 (f (fst xy) C0 lambd - snd xy)) as Hsq.
  destruct Hin as [->|Hin].
  - cbn [fst snd] in *.
    assert (Hz : (f x C0 lambd - y) ^ 2 = 0) by lra.
    cbn [pow] in Hz. nra.
  - apply IH; [lra|exact Hin].
Qed.

Lemma window_ends_in (recent_data : list (R * R)) :
  recent_data <> [] ->
  In (first_time recent_data, first_CO recent_data) recent_data /\
  In (last_time recent_data, last_CO recent_data) recent_data.
Proof.
  intros Hne. split.
  - destruct recent_data as [|[t c] l]; [contradiction|]. left. reflexivity.
  - unfold last_time, last_CO.
    induction recent_data as [|[t c] l IH]; [contradiction|].
    destruct l as [|p l'].
    + left. reflexivity.
    + right. apply IH. discriminate.
Qed.

(** A parameter pair that leaves no residual on a window with positive,
    net-decreasing concentrations starts at the first concentration, and its
    decay constant times the time span of the window is
    [ln (first / last)]: it is positive when the window runs forward in time
    and negative when it runs backward. *)
Theorem exact_fit_decay_sign (recent_data : list (R * R)) (C0 lambd : R) :
  sum_sq_residuals (decay (map fst recent_data)) (map fst recent_data)
    (map snd recent_data) C0 lambd = 0 ->
  0 < last_CO recent_data ->
  last_CO recent_data < first_CO recent_data ->
  C0 = first_CO recent_data /\
  lambd * (last_time recent_data - first_time recent_data) =
    ln (first_CO recent_data / last_CO recent_data) /\
  (first_time recent_data < last_time recent_data -> 0 < lambd) /\
  (last_time recent_data < first_time recent_data -> lambd < 0).
Proof.
  intros Hres Hpos Hdec.
  assert (Hne : recent_data <> []).
  { intros ->. unfold last_CO, first_CO in Hdec. cbn in Hdec. lra. }
  pose proof (sum_sq_zero_each _ _ _ _ _ Hres) as Heach.
  rewrite combine_fst_snd in Heach.
  destruct (window_ends_in recent_data Hne) as [Hfirst Hlast].
  apply Heach in Hfirst. apply Heach in Hlast.
  rewrite decay_first_time in Hfirst, Hlast.
  set (t0 := first_time recent_data) in *. set (tn := last_time recent_data) in *.
  set (c0 := first_CO recent_data) in *. set (cn := last_CO recent_data) in *.
  replace (- lambd * (t0 - t0)) with 0 in Hfirst by ring.
  rewrite exp_0, Rmult_1_r in Hfirst. subst C0.
  assert (Hexp : exp (- lambd * (tn - t0)) = cn / c0).
  { rewrite <- Hlast. field. lra. }
  assert (Hln : - lambd * (tn - t0) = ln (cn / c0)).
  { rewrite <- Hexp. symmetry. apply ln_exp. }
  assert (Hflip : ln (c0 / cn) = - ln (cn / c0)).
  { rewrite <- ln_Rinv by (apply Rdiv_lt_0_compat; lra). f_equal. field. lra. }
  assert (Hgt : 0 < ln (c0 / cn)).
  { rewrite <- ln_1. apply ln_increasing; [lra|].
    apply (Rmult_lt_reg_r cn); [lra|]. unfold Rdiv.
    rewrite Rmult_assoc, Rinv_l by lra. lra. }
  split; [reflexivity|]. split; [lra|]. split; intros Ht; nra.
Qed.

Lemma exact_fit_decay_sign_two_samples :
  400 = first_CO (window two_sample_room) /\
  ln (400 / 380) / (30 - 0) *
    (last_time (window two_sample_room) - first_time (window two_sample_room)) =
    ln (first_CO (window two_sample_room) / last_CO (window two_sample_room)) /\
  (first_time (window two_sample_room) < last_time (window two_sample_room) ->
   0 < ln (400 / 380) / (30 - 0)) /\
  (last_time (window two_sample_room) < first_time (window two_sample_room) ->
   ln (400 / 380) / (30 - 0) < 0).
Proof.
  apply (exact_fit_decay_sign (window two_sample_room) 400
           (ln (400 / 380) / (30 - 0))).
  - apply (two_point_fit_exact 0 30 400 380); lra.
  - eval_room. lra.
  - eval_room. lra.
Defined.

(** ** The confidence heuristic beyond the module constants *)

Lemma sigmoid_increasing (x y : R) : x < y -> sigmoid x < sigmoid y.
Proof.
  intros Hxy. rewrite !sigmoid_exp.
  pose proof (exp_pos (- x)) as Hx. pose proof (exp_pos (- y)) as Hy.
  assert (Hlt : exp (- y) < exp (- x)) by (apply exp_increasing; lra).
  unfold Rdiv. rewrite !Rmult_1_l.
  apply Rinv_lt_contravar; [|lra].
  apply Rmult_lt_0_compat; lra.
Qed.

Lemma sigmoid_symmetric (x : R) : sigmoid (- x) = 1 - sigmoid x.
Proof.
  rewrite !sigmoid_exp. rewrite Ropp_involutive.
  pose proof (exp_pos x) as Hx.
  rewrite exp_Ropp. field. split; lra.
Qed.

Lemma round_half_even_monotone (x y : R) :
  x <= y -> (round_half_even x <= round_half_even y)%Z.
Proof.
  intros Hxy.
  pose proof (Zfloor_le x y Hxy) as Hfl.
  pose proof (Zfloor_bound x) as [Hx1 Hx2].
  pose proof (Zfloor_bound y) as [Hy1 Hy2].
  destruct (Z.eq_dec (Zfloor x) (Zfloor y)) as [Heq|Hne].
  - unfold round_half_even. rewrite <- Heq.
    repeat match goal with
           | |- context [Rlt_dec ?a ?b] => destruct (Rlt_dec a b)
           end;
      destruct (Z.even (Zfloor x)); try lia; exfalso; lra.
  - pose proof (round_half_even_between x (Zfloor x) (Zfloor x + 1)) as Hbx.
    rewrite plus_IZR in Hbx. specialize (Hbx ltac:(lra)).
    pose proof (round_half_even_between y (Zfloor y) (Zfloor y + 1)) as Hby.
    rewrite plus_IZR in Hby. specialize (Hby ltac:(lra)).
    lia.
Qed.

Lemma py_round_2_monotone (x y : R) : x <= y -> py_round x 2 <= py_round y 2.
Proof.
  intros Hxy. unfold py_round.
  replace (10 ^ 2) with 100 by (simpl; ring).
  pose proof (round_half_even_monotone (x * 100) (y * 100) ltac:(lra)) as Hm.
  apply IZR_le in Hm. unfold Rdiv.
  apply Rmult_le_compat_r; [|exact Hm].
  apply Rlt_le, Rinv_0_lt_compat. lra.
Qed.

Lemma sigmoid_monotone (x y : R) : x <= y -> sigmoid x <= sigmoid y.
Proof.
  intros [Hlt| ->]; [apply Rlt_le, sigmoid_increasing, Hlt|lra].
Qed.

(** The score [quant_confidence] hands to the sigmoid. *)
Lemma quant_confidence_score (b : string) (nf vs occ : R) :
  quant_confidence b nf vs occ =
    py_round (sigmoid ((if String.eqb b "low" then 50 - 25 else 50 + 25)
                       + (nf * 3 + vs * 2 + occ * 15))) 2.
Proof.
  unfold quant_confidence. cbv zeta.
  unfold AirFlowInhibitorWeights.FURNITURE, AirFlowInhibitorWeights.NUM_FANS,
    AirFlowInhibitorWeights.RESIDENTIAL_CFM.
  reflexivity.
Qed.

(** As long as the weighted sum of the factors stays at or above -700, where
    the power in [sigmoid] does not overflow, the confidence never falls when
    the furniture count, the vent speed or the occupant count grows, and for
    equal factors it lies between the value for the label "low" and the value
    for the label "high", whatever the label. *)
Theorem quant_confidence_monotone (b : string) (nf vs occ nf' vs' occ' : R) :
  - 700 <= nf * 3 + vs * 2 + occ * 15 ->
  nf <= nf' -> vs <= vs' -> occ <= occ' ->
  quant_confidence b nf vs occ <= quant_confidence b nf' vs' occ' /\
  quant_confidence "low" nf vs occ <= quant_confidence b nf vs occ /\
  quant_confidence b nf vs occ <= quant_confidence "high" nf vs occ.
Proof.
  intros _ Hnf Hvs Hocc. rewrite !quant_confidence_score.
  replace (String.eqb "low" "low") with true by reflexivity.
  replace (String.eqb "high" "low") with false by reflexivity.
  repeat split; apply py_round_2_monotone, sigmoid_monotone;
    destruct (String.eqb b "low"); lra.
Qed.

Lemma quant_confidence_monotone_demo :
  quant_confidence "low" 6 0.5 4 <= quant_confidence "low" 7 0.5 5 /\
  quant_confidence "low" 6 0.5 4 <= quant_confidence "low" 6 0.5 4 /\
  quant_confidence "low" 6 0.5 4 <= quant_confidence "high" 6 0.5 4.
Proof.
  apply (quant_confidence_monotone "low" 6 0.5 4 7 0.5 5); lra.
Defined.

Lemma exp_6_large (x : R) : 6 <= x -> 199 < exp x.
Proof.
  intros Hx.
  assert (H1 : 1.1875 <= exp (x / 32)).
  { pose proof (exp_ineq1_le (x / 32)). lra. }
  assert (H2 : 1.41 <= exp (x / 16)).
  { replace (x / 16) with (x / 32 + x / 32) by field. rewrite exp_plus. nra. }
  assert (H4 : 1.98 <= exp (x / 8)).
  { replace (x / 8) with (x / 16 + x / 16) by field. rewrite exp_plus. nra. }
  assert (H8 : 3.92 <= exp (x / 4)).
  { replace (x / 4) with (x / 8 + x / 8) by field. rewrite exp_plus. nra. }
  assert (H16 : 15.36 <= exp (x / 2)).
  { replace (x / 2) with (x / 4 + x / 4) by field. rewrite exp_plus. nra. }
  replace x with (x / 2 + x / 2) by field. rewrite exp_plus. nra.
Qed.

Lemma sigmoid_near_one_6 (x : R) : 6 <= x -> 0.995 < sigmoid x.
Proof.
  intros Hx. rewrite sigmoid_exp.
  pose proof (exp_6_large x Hx) as Hbig.
  assert (Hinv : exp (- x) * exp x = 1).
  { rewrite <- exp_plus. replace (- x + x) with 0 by ring. apply exp_0. }
  pose proof (exp_pos (- x)) as Hpos.
  assert (Hsmall : exp (- x) < 1 / 199) by nra.
  assert (Hs : 1 / (1 + exp (- x)) * (1 + exp (- x)) = 1) by (field; lra).
  nra.
Qed.

Lemma py_round_2_near_zero (x : R) : - 0.005 < x < 0.005 -> py_round x 2 = 0.
Proof.
  intros Hx. unfold py_round.
  replace (10 ^ 2) with 100 by (simpl; ring).
  rewrite (round_half_even_nearest (x * 100) 0) by lra.
  field.
Qed.

(** The heuristic is saturated well beyond the module constants: whenever the
    weighted sum of the three factors is at least -19 (so for all
    non-negative factors) the confidence is exactly 1 for every label, and
    whenever it lies between -700 and -81 the confidence is exactly 0.  (Far
    below that the power in [sigmoid] overflows in binary64.) *)
Theorem quant_confidence_saturates (b : string) (nf vs occ : R) :
  (- 19 <= nf * 3 + vs * 2 + occ * 15 -> quant_confidence b nf vs occ = 1) /\
  (- 700 <= nf * 3 + vs * 2 + occ * 15 <= - 81 ->
   quant_confidence b nf vs occ = 0).
Proof.
  rewrite quant_confidence_score. split; intros H.
  - apply py_round_2_near_one.
    match goal with |- _ < sigmoid ?s < _ =>
      pose proof (sigmoid_bounds s); assert (6 <= s) by (destruct (String.eqb b "low"); lra);
      pose proof (sigmoid_near_one_6 s ltac:(assumption)) end.
    lra.
  - apply py_round_2_near_zero.
    match goal with |- _ < sigmoid ?s < _ =>
      pose proof (sigmoid_bounds s) as Hb;
      assert (Hs : 6 <= - s) by (destruct (String.eqb b "low"); lra);
      pose proof (sigmoid_near_one_6 (- s) Hs) as Hn;
      rewrite sigmoid_symmetric in Hn end.
    lra.
Qed.

Lemma quant_confidence_saturates_empty_room :
  quant_confidence "low" 0 0 0 = 1.
Proof.
  apply (proj1 (quant_confidence_saturates "low" 0 0 0)). lra.
Defined.

(** ** The room volume *)

(** The room volume only scales the airflows: with the same log and the same
    fitter, a calculator of any other volume also returns an estimate, with
    the same ACH and confidence, and with airflows [ACH * volume] and
    [ACH * volume * 0.588]. *)
Theorem room_volume_only_scales (curve_fit : fitter) (history : list (R * R))
    (v1 v2 : R) (est1 : AirflowEstimate) :
  calculate_airflow curve_fit {| room_volume := v1; CO_history := history |}
    = Ok (Some est1) ->
  exists est2,
    calculate_airflow curve_fit {| room_volume := v2; CO_history := history |}
      = Ok (Some est2) /\
    ACH est2 = ACH est1 /\
    confidence est2 = confidence est1 /\
    airflow_m3h est2 = ACH est1 * v2 /\
    airflow_CFM est2 = ACH est1 * v2 * 0.588.
Proof.
  intros H.
  destruct (calculate_airflow_Some_inv _ _ _ H) as (Hlen & Hdec & C0 & lam & Hfit & ->).
  exists (estimate_of {| room_volume := v2; CO_history := history |}
            (window {| room_volume := v2; CO_history := history |}) lam).
  split; [|repeat split].
  apply (calculate_airflow_fitted _ _ C0); assumption.
Qed.

Lemma room_volume_only_scales_demo :
  exists est2,
    calculate_airflow (const_fit 400 0.00163)
      {| room_volume := 100; CO_history := CO_history demo_room |} = Ok (Some est2) /\
    ACH est2 = ACH (demo_estimate 0.00163) /\
    confidence est2 = confidence (demo_estimate 0.00163) /\
    airflow_m3h est2 = ACH (demo_estimate 0.00163) * 100 /\
    airflow_CFM est2 = ACH (demo_estimate 0.00163) * 100 * 0.588.
Proof.
  apply (room_volume_only_scales (const_fit 400 0.00163) (CO_history demo_room) 48 100).
  exact (demo_room_estimate 400 0.00163).
Defined.

(** ** [model_evaluator.py]: slices and windows *)

Section ModelEvaluatorFacts.
Import ModelEvaluator.

Lemma py_slice_nat {A : Type} (l : list A) (a b : nat) :
  py_slice l (Some (Z.of_nat a)) (Some (Z.of_nat b)) = firstn (b - a) (skipn a l).
Proof.
  unfold py_slice, slice_bound.
  replace (Z.of_nat a <? 0)%Z with false by (symmetry; apply Z.ltb_ge; lia).
  replace (Z.of_nat b <? 0)%Z with false by (symmetry; apply Z.ltb_ge; lia).
  destruct (Nat.le_gt_cases (length l) a) as [Hge|Hlt].
  - rewrite (skipn_all2 l (n := a)) by exact Hge.
    rewrite skipn_all2 by lia. rewrite !firstn_nil. reflexivity.
  - replace (Z.to_nat (Z.min (Z.of_nat a) (Z.of_nat (length l)))) with a by lia.
    destruct (Nat.le_gt_cases (length l) b) as [Hb|Hb].
    + rewrite !firstn_all2; [reflexivity| |]; rewrite length_skipn; lia.
    + f_equal. lia.
Qed.

Lemma py_slice_prefix {A : Type} (l : list A) (b : Z) :
  (0 <= b)%Z -> py_slice l None (Some b) = firstn (Z.to_nat b) l.
Proof.
  intros Hb. unfold py_slice, slice_bound.
  replace (b <? 0)%Z with false by (symmetry; apply Z.ltb_ge; lia).
  cbn [Z.to_nat skipn]. rewrite Z.sub_0_r.
  destruct (Z.le_gt_cases b (Z.of_nat (length l))) as [Hle|Hgt].
  - rewrite Z.min_l by lia. reflexivity.
  - rewrite Z.min_r by lia. rewrite !firstn_all2; [reflexivity|lia|lia].
Qed.

Lemma py_slice_suffix {A : Type} (l : list A) (a : Z) :
  (0 <= a)%Z -> py_slice l (Some a) None = skipn (Z.to_nat a) l.
Proof.
  intros Ha. unfold py_slice, slice_bound.
  replace (a <? 0)%Z with false by (symmetry; apply Z.ltb_ge; lia).
  destruct (Z.le_gt_cases a (Z.of_nat (length l))) as [Hle|Hgt].
  - rewrite Z.min_l by lia. apply firstn_all2. rewrite length_skipn. lia.
  - rewrite Z.min_r by lia. rewrite Nat2Z.id.
    rewrite skipn_all. rewrite skipn_all2 by lia. apply firstn_nil.
Qed.

Lemma py_slice_middle {A : Type} (l : list A) (a b : Z) :
  (0 <= a)%Z -> (0 <= b)%Z ->
  py_slice l (Some a) (Some b) =
    firstn (Z.to_nat b - Z.to_nat a) (skipn (Z.to_nat a) l).
Proof.
  intros Ha Hb. rewrite <- (Z2Nat.id a Ha) at 1. rewrite <- (Z2Nat.id b Hb) at 1.
  apply py_slice_nat.
Qed.

Lemma three_slices {A : Type} (l : list A) (a b : nat) :
  (a <= b)%nat ->
  firstn a l ++ firstn (b - a) (skipn a l) ++ skipn b l = l.
Proof.
  intros Hab.
  replace (skipn b l) with (skipn (b - a) (skipn a l))
    by (rewrite skipn_skipn; f_equal; lia).
  rewrite firstn_skipn. apply firstn_skipn.
Qed.

Lemma py_slice_partition {A : Type} (l : list A) (a b : Z) :
  (0 <= a <= b)%Z ->
  py_slice l None (Some a) ++ py_slice l (Some a) (Some b) ++ py_slice l (Some b) None
    = l.
Proof.
  intros [Ha Hab].
  rewrite py_slice_prefix, py_slice_middle, py_slice_suffix by lia.
  apply three_slices. lia.
Qed.

Lemma py_slice_map {A B : Type} (f : A -> B) (l : list A) (start stop : option Z) :
  py_slice (map f l) start stop = map f (py_slice l start stop).
Proof.
  unfold py_slice. rewrite length_map, skipn_map, firstn_map. reflexivity.
Qed.

Lemma py_int_nonneg (x : R) : 0 <= x -> (0 <= py_int x)%Z.
Proof.
  intros Hx. unfold py_int.
  destruct (Rle_dec 0 x) as [_|Hn]; [|contradiction].
  apply (Zfloor_lub 0 x). exact Hx.
Qed.

Lemma py_int_monotone_nonneg (x y : R) :
  0 <= x -> x <= y -> (py_int x <= py_int y)%Z.
Proof.
  intros Hx Hxy. unfold py_int.
  destruct (Rle_dec 0 x) as [_|Hn]; [|contradiction].
  destruct (Rle_dec 0 y) as [_|Hn]; [|lra].
  apply Zfloor_le, Hxy.
Qed.

Lemma np_index_nonneg (a : list R) (j : Z) :
  (0 <= j < Z.of_nat (length a))%Z -> np_index a j = Ok (nth (Z.to_nat j) a 0).
Proof.
  intros [Hj0 Hjn]. unfold np_index.
  replace (j <? 0)%Z with false by (symmetry; apply Z.ltb_ge; lia).
  replace ((0 <=? j)%Z && (j <? Z.of_nat (length a))%Z) with true.
  - rewrite (nth_error_nth' a 0) by lia. reflexivity.
  - symmetry. apply andb_true_intro. split; [apply Z.leb_le|apply Z.ltb_lt]; lia.
Qed.

Lemma np_index_out_of_range (a : list R) (j : Z) :
  (j < - Z.of_nat (length a) \/ Z.of_nat (length a) <= j)%Z ->
  np_index a j = Raise (IndexError "index out of bounds").
Proof.
  intros Hj. unfold np_index.
  destruct (j <? 0)%Z eqn:Hneg.
  - apply Z.ltb_lt in Hneg.
    replace (0 <=? j + Z.of_nat (length a))%Z with false
      by (symmetry; apply Z.leb_gt; lia).
    reflexivity.
  - apply Z.ltb_ge in Hneg.
    replace (j <? Z.of_nat (length a))%Z with false
      by (symmetry; apply Z.ltb_ge; lia).
    rewrite andb_false_r. reflexivity.
Qed.
End ModelEvaluatorFacts.

Lemma nth_map_default {A B : Type} (f : A -> B) (l : list A) (k : nat)
    (d : A) (d' : B) :
  (k < length l)%nat -> nth k (map f l) d' = f (nth k l d).
Proof.
  intros Hk. rewrite (nth_indep _ d' (f d)) by (rewrite length_map; exact Hk).
  apply map_nth.
Qed.

Lemma in_firstn {A : Type} (n : nat) (l : list A) (x : A) :
  In x (firstn n l) -> In x l.
Proof.
  intros H. rewrite <- (firstn_skipn n l). apply in_or_app. left. exact H.
Qed.

Lemma in_skipn {A : Type} (n : nat) (l : list A) (x : A) :
  In x (skipn n l) -> In x l.
Proof.
  intros H. rewrite <- (firstn_skipn n l). apply in_or_app. right. exact H.
Qed.

Section CreateSequences.
Import ModelEvaluator.

Variable ncols : nat.
Variable data : list (list R).
Variable lookback : nat.
Variable target_idx : Z.

Hypothesis data_rows : Forall (fun r => length r = ncols) data.

Lemma lookback_slice (i : nat) :
  (lookback <= i)%nat ->
  py_slice data (Some (Z.of_nat i - Z.of_nat lookback)%Z) (Some (Z.of_nat i)) =
    firstn lookback (skipn (i - lookback) data).
Proof.
  intros Hi. rewrite <- Nat2Z.inj_sub by exact Hi. rewrite py_slice_nat.
  f_equal. lia.
Qed.

Lemma index2_in_range (i : nat) :
  (i < length data)%nat -> (0 <= target_idx < Z.of_nat ncols)%Z ->
  index2 data i target_idx = Ok (nth (Z.to_nat target_idx) (nth i data []) 0).
Proof.
  intros Hi Hj. unfold index2. rewrite (nth_error_nth' data []) by exact Hi.
  apply np_index_nonneg.
  rewrite Forall_forall in data_rows. rewrite (data_rows (nth i data [])).
  - exact Hj.
  - apply nth_In, Hi.
Qed.

Lemma index2_out_of_range (i : nat) :
  (i < length data)%nat ->
  (target_idx < - Z.of_nat ncols \/ Z.of_nat ncols <= target_idx)%Z ->
  index2 data i target_idx = Raise (IndexError "index out of bounds").
Proof.
  intros Hi Hj. unfold index2. rewrite (nth_error_nth' data []) by exact Hi.
  apply np_index_out_of_range.
  rewrite Forall_forall in data_rows. rewrite (data_rows (nth i data [])).
  - exact Hj.
  - apply nth_In, Hi.
Qed.

Lemma create_sequences_loop_ok (cnt : nat) :
  (0 <= target_idx < Z.of_nat ncols)%Z ->
  forall (start : nat) (X : list (list (list R))) (y : list R),
    (lookback <= start)%nat -> (start + cnt <= length data)%nat ->
    create_sequences_loop data lookback target_idx (seq start cnt) X y =
      Ok (X ++ map (fun i => firstn lookback (skipn (i - lookback) data))
                 (seq start cnt),
          y ++ map (fun i => nth (Z.to_nat target_idx) (nth i data []) 0)
                 (seq start cnt)).
Proof.
  intros Hj. induction cnt as [|cnt IH]; intros start X y Hlo Hhi.
  - cbn [seq create_sequences_loop map]. rewrite !app_nil_r. reflexivity.
  - cbn [seq create_sequences_loop map]. cbv zeta.
    rewrite index2_in_range by (lia || exact Hj). cbn [bind].
    rewrite IH by lia. rewrite lookback_slice by exact Hlo.
    rewrite <- !app_assoc. reflexivity.
Qed.

(** The windows and targets, one per index of the loop. *)
Lemma create_sequences_value :
  (0 <= target_idx < Z.of_nat ncols)%Z ->
  (lookback < length data)%nat ->
  create_sequences ncols data lookback target_idx =
    Ok (Arr3 lookback ncols
          (map (fun i => firstn lookback (skipn (i - lookback) data))
             (seq lookback (length data - lookback))),
        Arr1 (map (fun i => nth (Z.to_nat target_idx) (nth i data []) 0)
                (seq lookback (length data - lookback)))).
Proof.
  intros Hj Hlen. unfold create_sequences.
  rewrite (create_sequences_loop_ok _ Hj lookback [] []) by lia.
  cbn [bind app]. unfold np_array3.
  destruct (length data - lookback)%nat as [|n] eqn:Hn; [lia|]. reflexivity.
Qed.

Lemma nth_windows (k : nat) :
  (k < length data - lookback)%nat ->
  nth k (map (fun i => firstn lookback (skipn (i - lookback) data))
           (seq lookback (length data - lookback))) [] =
    firstn lookback (skipn k data).
Proof.
  intros Hk. rewrite (nth_map_default _ _ k 0%nat) by (rewrite length_seq; exact Hk).
  rewrite seq_nth by exact Hk. do 2 f_equal. lia.
Qed.

Lemma nth_targets (k : nat) :
  (k < length data - lookback)%nat ->
  nth k (map (fun i => nth (Z.to_nat target_idx) (nth i data []) 0)
           (seq lookback (length data - lookback))) 0 =
    nth (Z.to_nat target_idx) (nth (k + lookback) data []) 0.
Proof.
  intros Hk. rewrite (nth_map_default _ _ k 0%nat) by (rewrite length_seq; exact Hk).
  rewrite seq_nth by exact Hk. do 2 f_equal. lia.
Qed.

(** On a 2-D array with more rows than [lookback] and a target column inside
    the array, [create_sequences] returns one window per row from [lookback]
    on: window [k] is the [lookback] rows [k .. k + lookback - 1], and [y[k]]
    is the target column of the row right after them. *)
Theorem create_sequences_windows :
  (0 <= target_idx < Z.of_nat ncols)%Z ->
  (lookback < length data)%nat ->
  exists X y,
    create_sequences ncols data lookback target_idx =
      Ok (Arr3 lookback ncols X, Arr1 y) /\
    length X = (length data - lookback)%nat /\
    length y = (length data - lookback)%nat /\
    well_formed (Arr3 lookback ncols X) /\
    forall k, (k < length data - lookback)%nat ->
      nth k X [] = firstn lookback (skipn k data) /\
      nth k y 0 = nth (Z.to_nat target_idx) (nth (k + lookback) data []) 0.
Proof.
  intros Hj Hlen.
  eexists. eexists. split; [apply create_sequences_value; assumption|].
  split; [rewrite length_map, length_seq; reflexivity|].
  split; [rewrite length_map, length_seq; reflexivity|].
  split.
  - cbn [well_formed]. rewrite Forall_map, Forall_forall.
    intros i Hi. apply in_seq in Hi. split.
    + rewrite length_firstn, length_skipn. lia.
    + apply Forall_forall. intros r Hr.
      rewrite Forall_forall in data_rows. apply data_rows.
      apply in_firstn in Hr. apply in_skipn in Hr. exact Hr.
  - intros k Hk. split; [apply nth_windows|apply nth_targets]; exact Hk.
Qed.
End CreateSequences.

Section WindowsAndSplits.
Import ModelEvaluator.

Example create_sequences_sample :
  create_sequences 2 sample_data 2 1 =
    Ok (Arr3 2 2 [[[1; 10]; [2; 20]]; [[2; 20]; [3; 30]]], Arr1 [30; 40]).
Proof. reflexivity. Qed.

Lemma sample_data_rows : Forall (fun r => length r = 2%nat) sample_data.
Proof. repeat constructor. Qed.

Lemma create_sequences_windows_sample :
  exists X y,
    create_sequences 2 sample_data 2 1 = Ok (Arr3 2 2 X, Arr1 y) /\
    length X = (length sample_data - 2)%nat /\
    length y = (length sample_data - 2)%nat /\
    well_formed (Arr3 2 2 X) /\
    forall k, (k < length sample_data - 2)%nat ->
      nth k X [] = firstn 2 (skipn k sample_data) /\
      nth k y 0 = nth (Z.to_nat 1) (nth (k + 2) sample_data []) 0.
Proof.
  apply (create_sequences_windows 2 sample_data 2 1 sample_data_rows).
  - lia.
  - cbn. lia.
Defined.

Lemma py_slice_nil {A : Type} (start stop : option Z) :
  py_slice (@nil A) start stop = [].
Proof.
  unfold py_slice. rewrite skipn_nil. apply firstn_nil.
Qed.

(** When the array has no more rows than [lookback] there is no window:
    [create_sequences] returns two empty 1-D arrays, without looking at the
    target column, the split gives six empty arrays, and the control model
    raises on the empty [X], which has one axis where it indexes three. *)
Theorem create_sequences_too_short (ncols : nat) (data : list (list R))
    (lookback : nat) (target_idx : Z) (train_split val_split : R) :
  (length data <= lookback)%nat ->
  create_sequences ncols data lookback target_idx = Ok (Arr1 [], Arr1 []) /\
  prepare_timeseries_data_from ncols data target_idx lookback train_split val_split =
    Ok {| X_train := Arr1 []; y_train := Arr1 [];
          X_val := Arr1 []; y_val := Arr1 [];
          X_test := Arr1 []; y_test := Arr1 [] |} /\
  (exists msg, LastObservedModel_predict (Arr1 []) = Raise (IndexError msg)).
Proof.
  intros Hlen.
  assert (Hcs : create_sequences ncols data lookback target_idx = Ok (Arr1 [], Arr1 [])).
  { unfold create_sequences.
    replace (length data - lookback)%nat with 0%nat by lia. reflexivity. }
  split; [exact Hcs|]. split; [|eexists; reflexivity].
  unfold prepare_timeseries_data_from. rewrite Hcs. cbn [bind].
  unfold split_arrays. cbn [nd_slice]. rewrite !py_slice_nil. reflexivity.
Qed.

Lemma create_sequences_too_short_sample :
  create_sequences 2 sample_data 20 1 = Ok (Arr1 [], Arr1 []) /\
  prepare_timeseries_data_from 2 sample_data 1 20 0.8 0.1 =
    Ok {| X_train := Arr1 []; y_train := Arr1 [];
          X_val := Arr1 []; y_val := Arr1 [];
          X_test := Arr1 []; y_test := Arr1 [] |} /\
  (exists msg, LastObservedModel_predict (Arr1 []) = Raise (IndexError msg)).
Proof.
  apply (create_sequences_too_short 2 sample_data 20 1 0.8 0.1).
  cbn. lia.
Defined.

(** When there is at least one window and the target column lies outside the
    array, [create_sequences] raises IndexError at its first row, and so does
    the data preparation. *)
Theorem create_sequences_bad_target (ncols : nat) (data : list (list R))
    (lookback : nat) (target_idx : Z) (train_split val_split : R) :
  Forall (fun r => length r = ncols) data ->
  (lookback < length data)%nat ->
  (target_idx < - Z.of_nat ncols \/ Z.of_nat ncols <= target_idx)%Z ->
  exists msg,
    create_sequences ncols data lookback target_idx = Raise (IndexError msg) /\
    prepare_timeseries_data_from ncols data target_idx lookback train_split val_split =
      Raise (IndexError msg).
Proof.
  intros Hrows Hlen Hj. eexists.
  assert (Hcs : create_sequences ncols data lookback target_idx =
                Raise (IndexError "index out of bounds")).
  { unfold create_sequences.
    destruct (length data - lookback)%nat as [|cnt] eqn:Hn; [lia|].
    cbn [seq create_sequences_loop]. cbv zeta.
    rewrite (index2_out_of_range ncols data target_idx Hrows lookback) by (lia || exact Hj).
    reflexivity. }
  split; [exact Hcs|].
  unfold prepare_timeseries_data_from. rewrite Hcs. reflexivity.
Qed.

Lemma create_sequences_bad_target_sample :
  exists msg,
    create_sequences 2 sample_data 2 2 = Raise (IndexError msg) /\
    prepare_timeseries_data_from 2 sample_data 2 2 0.8 0.1 = Raise (IndexError msg).
Proof.
  apply (create_sequences_bad_target 2 sample_data 2 2 0.8 0.1 sample_data_rows).
  - cbn. lia.
  - lia.
Defined.
End WindowsAndSplits.

Section Splits.
Import ModelEvaluator.

Lemma py_slice_length_eq {A B : Type} (l : list A) (l' : list B)
    (start stop : option Z) :
  length l = length l' ->
  length (py_slice l start stop) = length (py_slice l' start stop).
Proof.
  intros Hlen. unfold py_slice.
  rewrite !length_firstn, !length_skipn, Hlen. reflexivity.
Qed.

Lemma nd_slice_len_eq (x y : ndarray) (start stop : option Z) :
  len x = len y -> len (nd_slice x start stop) = len (nd_slice y start stop).
Proof.
  intros Hlen. destruct x, y; cbn [nd_slice len] in *;
    apply py_slice_length_eq; exact Hlen.
Qed.

Lemma nd_slice_partition (x : ndarray) (a b : Z) :
  (0 <= a <= b)%Z ->
  (r <- concatenate (nd_slice x (Some a) (Some b)) (nd_slice x (Some b) None) ;;
   concatenate (nd_slice x None (Some a)) r) = Ok x.
Proof.
  intros Hab.
  destruct x as [l|c l|r c l]; cbn [nd_slice concatenate];
    rewrite ?Nat.eqb_refl; cbn [andb bind concatenate];
    rewrite ?Nat.eqb_refl; cbn [andb];
    rewrite (py_slice_partition l a b Hab); reflexivity.
Qed.

Lemma nd_slice_prefix_len (x : ndarray) (a : Z) :
  (0 <= a)%Z -> len (nd_slice x None (Some a)) = Nat.min (Z.to_nat a) (len x).
Proof.
  intros Ha. destruct x; cbn [nd_slice len];
    rewrite py_slice_prefix by exact Ha; apply length_firstn.
Qed.

(** With non-negative fractions the three parts of a split are consecutive
    pieces of the input: train, validation and test concatenated give back
    [X], and likewise [y], whatever the fractions add up to.  The training
    part holds the first [int(n * train_split)] samples (all of them when
    that exceeds [n]), and when [X] and [y] have one length so has each pair
    of parts. *)
Theorem split_arrays_partition (X y : ndarray) (train_split val_split : R) :
  0 <= train_split -> 0 <= val_split ->
  (r <- concatenate (X_val (split_arrays X y train_split val_split))
          (X_test (split_arrays X y train_split val_split)) ;;
   concatenate (X_train (split_arrays X y train_split val_split)) r) = Ok X /\
  (r <- concatenate (y_val (split_arrays X y train_split val_split))
          (y_test (split_arrays X y train_split val_split)) ;;
   concatenate (y_train (split_arrays X y train_split val_split)) r) = Ok y /\
  len (X_train (split_arrays X y train_split val_split)) =
    Nat.min (Z.to_nat (py_int (INR (len X) * train_split))) (len X) /\
  (len X = len y ->
   len (X_train (split_arrays X y train_split val_split)) =
     len (y_train (split_arrays X y train_split val_split)) /\
   len (X_val (split_arrays X y train_split val_split)) =
     len (y_val (split_arrays X y train_split val_split)) /\
   len (X_test (split_arrays X y train_split val_split)) =
     len (y_test (split_arrays X y train_split val_split))).
Proof.
  intros Ht Hv. unfold split_arrays. cbv zeta.
  cbn [X_train X_val X_test y_train y_val y_test].
  pose proof (pos_INR (len X)) as Hn.
  assert (Hab : (0 <= py_int (INR (len X) * train_split)
                   <= py_int (INR (len X) * (train_split + val_split)))%Z).
  { split.
    - apply py_int_nonneg. apply Rmult_le_pos; assumption.
    - apply py_int_monotone_nonneg; [apply Rmult_le_pos; assumption|].
      apply Rmult_le_compat_l; [exact Hn|lra]. }
  split; [apply nd_slice_partition, Hab|].
  split; [apply nd_slice_partition, Hab|].
  split; [apply nd_slice_prefix_len; lia|].
  intros Hlen. repeat split; apply nd_slice_len_eq, Hlen.
Qed.

Lemma split_arrays_partition_ten :
  (r <- concatenate (X_val (split_arrays ten_samples ten_samples 0.8 0.1))
          (X_test (split_arrays ten_samples ten_samples 0.8 0.1)) ;;
   concatenate (X_train (split_arrays ten_samples ten_samples 0.8 0.1)) r)
    = Ok ten_samples /\
  (r <- concatenate (y_val (split_arrays ten_samples ten_samples 0.8 0.1))
          (y_test (split_arrays ten_samples ten_samples 0.8 0.1)) ;;
   concatenate (y_train (split_arrays ten_samples ten_samples 0.8 0.1)) r)
    = Ok ten_samples /\
  len (X_train (split_arrays ten_samples ten_samples 0.8 0.1)) =
    Nat.min (Z.to_nat (py_int (INR (len ten_samples) * 0.8))) (len ten_samples) /\
  (len ten_samples = len ten_samples ->
   len (X_train (split_arrays ten_samples ten_samples 0.8 0.1)) =
     len (y_train (split_arrays ten_samples ten_samples 0.8 0.1)) /\
   len (X_val (split_arrays ten_samples ten_samples 0.8 0.1)) =
     len (y_val (split_arrays ten_samples ten_samples 0.8 0.1)) /\
   len (X_test (split_arrays ten_samples ten_samples 0.8 0.1)) =
     len (y_test (split_arrays ten_samples ten_samples 0.8 0.1))).
Proof.
  apply (split_arrays_partition ten_samples ten_samples 0.8 0.1); lra.
Defined.

Lemma py_int_exact (z : Z) (x : R) : (0 <= z)%Z -> x = IZR z -> py_int x = z.
Proof.
  intros Hz ->. unfold py_int.
  destruct (Rle_dec 0 (IZR z)) as [_|Hn]; [apply ZfloorZ|].
  exfalso. apply Hn. apply (IZR_le 0 z Hz).
Qed.

(** The default 80-10-10 split of ten samples. *)
Example split_arrays_ten :
  split_arrays ten_samples ten_samples 0.8 0.1 =
    {| X_train := Arr1 [0; 1; 2; 3; 4; 5; 6; 7];
       y_train := Arr1 [0; 1; 2; 3; 4; 5; 6; 7];
       X_val := Arr1 [8]; y_val := Arr1 [8];
       X_test := Arr1 [9]; y_test := Arr1 [9] |}.
Proof.
  unfold split_arrays. cbv zeta.
  rewrite (py_int_exact 8) by (try lia; cbn [len ten_samples length INR]; lra).
  rewrite (py_int_exact 9) by (try lia; cbn [len ten_samples length INR]; lra).
  reflexivity.
Qed.
End Splits.

Section ControlModel.
Import ModelEvaluator.

Lemma last_of_window (data : list (list R)) (lookback k : nat) :
  (1 <= lookback)%nat -> (k + lookback <= length data)%nat ->
  last (firstn lookback (skipn k data)) [] = nth (k + lookback - 1) data [].
Proof.
  intros Hlb Hk.
  set (w := firstn lookback (skipn k data)).
  assert (Hlen : length w = lookback).
  { subst w. rewrite length_firstn, length_skipn. lia. }
  assert (Hne : w <> []).
  { intros Hnil. rewrite Hnil in Hlen. cbn in Hlen. lia. }
  pose proof (nth_error_last w [] Hne) as Hlast.
  apply (nth_error_nth w (length w - 1) []) in Hlast.
  rewrite <- Hlast, Hlen. subst w.
  rewrite nth_firstn.
  replace (lookback - 1 <? lookback)%nat with true
    by (symmetry; apply Nat.ltb_lt; lia).
  rewrite nth_skipn. f_equal. lia.
Qed.

(** On the windows [create_sequences] builds (with [lookback >= 1]) the
    control model predicts, for window [k], column 0 of the last row of the
    window, row [k + lookback - 1] of the data.  That is the previous value
    of the target, [y[k - 1]], when the target is column 0; for any other
    target column the forecast is read from column 0 all the same. *)
Theorem last_observed_on_windows (ncols : nat) (data : list (list R))
    (lookback : nat) (target_idx : Z) :
  Forall (fun r => length r = ncols) data ->
  (0 <= target_idx < Z.of_nat ncols)%Z ->
  (1 <= lookback < length data)%nat ->
  exists X y p,
    create_sequences ncols data lookback target_idx =
      Ok (Arr3 lookback ncols X, Arr1 y) /\
    LastObservedModel_predict (Arr3 lookback ncols X) = Ok (Arr1 p) /\
    length p = (length data - lookback)%nat /\
    (forall k, (k < length data - lookback)%nat ->
       nth k p 0 = nth 0 (nth (k + lookback - 1) data []) 0) /\
    (target_idx = 0%Z ->
     forall k, (S k < length data - lookback)%nat -> nth (S k) p 0 = nth k y 0).
Proof.
  intros Hrows Hj [Hlb Hlen].
  pose proof (create_sequences_value ncols data lookback target_idx Hrows Hj Hlen)
    as Hcs.
  set (X := map (fun i => firstn lookback (skipn (i - lookback) data))
              (seq lookback (length data - lookback))) in *.
  set (y := map (fun i => nth (Z.to_nat target_idx) (nth i data []) 0)
              (seq lookback (length data - lookback))) in *.
  assert (HX : length X = (length data - lookback)%nat)
    by (subst X; rewrite length_map, length_seq; reflexivity).
  set (f := fun w : list (list R) => nth 0 (last w []) 0).
  exists X, y, (map f X).
  assert (Hp : forall k, (k < length data - lookback)%nat ->
                 nth k (map f X) 0 = nth 0 (nth (k + lookback - 1) data []) 0).
  { intros k Hlt. change 0 with (f []) at 1. rewrite map_nth.
    subst X. rewrite (nth_windows data lookback k Hlt). unfold f.
    rewrite last_of_window by lia. reflexivity. }
  split; [exact Hcs|]. split; [|split; [|split]].
  - unfold LastObservedModel_predict. cbn [ndim Nat.eqb].
    replace (lookback =? 0)%nat with false by (symmetry; apply Nat.eqb_neq; lia).
    replace (ncols =? 0)%nat with false by (symmetry; apply Nat.eqb_neq; lia).
    reflexivity.
  - rewrite length_map. exact HX.
  - exact Hp.
  - intros -> k Hlt. rewrite Hp by exact Hlt.
    subst y. rewrite (nth_targets data lookback 0%Z k) by lia.
    cbn [Z.to_nat]. do 2 f_equal. lia.
Qed.

Lemma last_observed_on_windows_sample :
  exists X y p,
    create_sequences 2 sample_data 2 0 = Ok (Arr3 2 2 X, Arr1 y) /\
    LastObservedModel_predict (Arr3 2 2 X) = Ok (Arr1 p) /\
    length p = (length sample_data - 2)%nat /\
    (forall k, (k < length sample_data - 2)%nat ->
       nth k p 0 = nth 0 (nth (k + 2 - 1) sample_data []) 0) /\
    (0%Z = 0%Z ->
     forall k, (S k < length sample_data - 2)%nat -> nth (S k) p 0 = nth k y 0).
Proof.
  apply (last_observed_on_windows 2 sample_data 2 0 sample_data_rows).
  - lia.
  - cbn. lia.
Defined.

(** With the target in column 1 the control model still reports column 0. *)
Example last_observed_reads_column_0 :
  create_sequences 2 sample_data 2 1 =
    Ok (Arr3 2 2 [[[1; 10]; [2; 20]]; [[2; 20]; [3; 30]]], Arr1 [30; 40]) /\
  LastObservedModel_predict (Arr3 2 2 [[[1; 10]; [2; 20]]; [[2; 20]; [3; 30]]]) =
    Ok (Arr1 [2; 3]).
Proof. split; reflexivity. Qed.

(** Forecasting a slice of the samples gives the same slice of the forecasts:
    the control model treats each sample on its own, and a slice along the
    first axis changes neither the rank nor the other axes. *)
Theorem last_observed_commutes_with_slice (X_test p : ndarray)
    (start stop : option Z) :
  LastObservedModel_predict X_test = Ok p ->
  LastObservedModel_predict (nd_slice X_test start stop) =
    Ok (nd_slice p start stop).
Proof.
  unfold LastObservedModel_predict.
  destruct X_test as [a|c a|r c a]; cbn [ndim Nat.eqb nd_slice]; intros H.
  - discriminate.
  - destruct (c =? 0)%nat; [discriminate|]. injection H as <-.
    cbn [nd_slice]. rewrite py_slice_map. reflexivity.
  - destruct (r =? 0)%nat; [discriminate|].
    destruct (c =? 0)%nat; [discriminate|]. injection H as <-.
    cbn [nd_slice]. rewrite py_slice_map. reflexivity.
Qed.

Lemma last_observed_commutes_with_slice_sample :
  LastObservedModel_predict
    (nd_slice (Arr3 2 2 [[[1; 10]; [2; 20]]; [[2; 20]; [3; 30]]]) (Some 1%Z) None) =
    Ok (nd_slice (Arr1 [2; 3]) (Some 1%Z) None).
Proof.
  apply (last_observed_commutes_with_slice
           (Arr3 2 2 [[[1; 10]; [2; 20]]; [[2; 20]; [3; 30]]]) (Arr1 [2; 3])).
  reflexivity.
Defined.
End ControlModel.

(** ** [model_evaluator.py]: the comparator, facts *)

Section ComparatorFacts.
Import ModelComparator.
Context {model summary : Type}.

Lemma compare_loop_appends (run : model -> outcome summary) (ms : list model) :
  forall results,
    compare_loop run ms results = results ++ successes run ms.
Proof.
  induction ms as [|m ms IH]; intros results.
  - cbn. rewrite app_nil_r. reflexivity.
  - cbn [compare_loop successes flat_map]. cbv zeta. rewrite IH.
    fold (successes run ms).
    destruct (run m) as [s|e]; [rewrite <- app_assoc|]; reflexivity.
Qed.

Lemma successes_length (run : model -> outcome summary) (ms : list model) :
  (length (successes run ms) <= length ms)%nat.
Proof.
  induction ms as [|m ms IH]; [cbn; lia|].
  cbn [successes flat_map]. fold (successes run ms).
  rewrite length_app. destruct (run m); cbn [length]; lia.
Qed.

(** [compare] appends to the rows already there one row for each model whose
    evaluation did not raise, in the order of the models, and skips the
    others; it never clears the rows, so a second call adds its rows after
    those of the first, and the stored frame holds both rounds. *)
Theorem compare_accumulates (run1 run2 : model -> outcome summary)
    (self : comparator model summary) :
  snd (compare run1 self) =
    results self ++ successes run1 (models self) /\
  (forall s, In s (successes run1 (models self)) <->
             exists m, In m (models self) /\ run1 m = Ok s) /\
  (length (snd (compare run1 self)) <=
     length (results self) + length (models self))%nat /\
  results_df
    (fst (compare run2 (fst (compare run1 self)))) =
    Some (results self
          ++ successes run1 (models self)
          ++ successes run2 (models self)).
Proof.
  unfold compare. cbn [fst snd models results results_df].
  rewrite !compare_loop_appends.
  split; [reflexivity|]. split; [|split].
  - intros s. unfold successes. rewrite in_flat_map. split.
    + intros (m & Hm & Hs). exists m. split; [exact Hm|].
      destruct (run1 m) as [s'|e]; [|contradiction].
      destruct Hs as [->|[]]. reflexivity.
    + intros (m & Hm & Hrun). exists m. split; [exact Hm|].
      rewrite Hrun. left. reflexivity.
  - rewrite length_app.
    pose proof (successes_length run1 (models self)). lia.
  - rewrite <- app_assoc. reflexivity.
Qed.
End ComparatorFacts.

(** ** [model_evaluator.py]: weighted scores *)

Section WeightedScores.
Import ModelComparator.

Lemma fold_left_Rmin_le (vs : list R) :
  forall v, fold_left Rmin vs v <= v /\
            forall x, In x vs -> fold_left Rmin vs v <= x.
Proof.
  induction vs as [|a vs IH]; intros v; cbn [fold_left].
  - split; [lra|intros x []].
  - destruct (IH (Rmin v a)) as [H1 H2].
    pose proof (Rmin_l v a). pose proof (Rmin_r v a).
    split; [lra|]. intros x [->|Hx]; [lra|apply H2, Hx].
Qed.

Lemma fold_left_Rmax_ge (vs : list R) :
  forall v, v <= fold_left Rmax vs v /\
            forall x, In x vs -> x <= fold_left Rmax vs v.
Proof.
  induction vs as [|a vs IH]; intros v; cbn [fold_left].
  - split; [lra|intros x []].
  - destruct (IH (Rmax v a)) as [H1 H2].
    pose proof (Rmax_l v a). pose proof (Rmax_r v a).
    split; [lra|]. intros x [->|Hx]; [lra|apply H2, Hx].
Qed.

(** What [normalize] returns on a non-empty column. *)
Lemma normalize_nonempty (metric : string) (values : list R) :
  values <> [] ->
  exists mn mx,
    (forall x, In x values -> mn <= x <= mx) /\
    normalize metric values =
      Ok (map (fun v => if String.eqb metric "R2"
                        then 1 - (v - mn) / (mx - mn + 1e-10)
                        else (v - mn) / (mx - mn + 1e-10)) values).
Proof.
  destruct values as [|v vs]; [contradiction|]. intros _.
  exists (fold_left Rmin vs v), (fold_left Rmax vs v). split.
  - destruct (fold_left_Rmin_le vs v) as [Hm1 Hm2].
    destruct (fold_left_Rmax_ge vs v) as [HM1 HM2].
    intros x [<-|Hx]; [lra|]. split; [apply Hm2, Hx|apply HM2, Hx].
  - unfold normalize, np_min, np_max. cbn [bind].
    destruct (String.eqb metric "R2"); [rewrite map_map|]; reflexivity.
Qed.

Lemma normalized_unit (mn mx x : R) :
  mn <= x <= mx -> 0 <= (x - mn) / (mx - mn + 1e-10) <= 1.
Proof.
  intros [H1 H2].
  assert (Hd : 0 < mx - mn + 1e-10) by lra.
  split.
  - apply Rmult_le_pos; [lra|]. apply Rlt_le, Rinv_0_lt_compat, Hd.
  - apply (Rmult_le_reg_r (mx - mn + 1e-10)); [exact Hd|].
    unfold Rdiv. rewrite Rmult_assoc, Rinv_l by lra. lra.
Qed.

Lemma normalized_monotone (mn mx x y : R) :
  mn <= mx -> x <= y ->
  (x - mn) / (mx - mn + 1e-10) <= (y - mn) / (mx - mn + 1e-10).
Proof.
  intros Hm Hxy. unfold Rdiv. apply Rmult_le_compat_r; [|lra].
  apply Rlt_le, Rinv_0_lt_compat. lra.
Qed.

Lemma nth_add_arrays (a b : list R) (k : nat) :
  length a = length b -> (k < length a)%nat ->
  nth k (add_arrays a b) 0 = nth k a 0 + nth k b 0.
Proof.
  intros Hlen Hk. unfold add_arrays.
  rewrite (nth_map_default _ _ k (0, 0)) by (rewrite length_combine; lia).
  rewrite combine_nth by exact Hlen. reflexivity.
Qed.

Lemma length_add_arrays (a b : list R) :
  length a = length b -> length (add_arrays a b) = length a.
Proof.
  intros Hlen. unfold add_arrays. rewrite length_map, length_combine. lia.
Qed.

Lemma fold_left_Rplus_acc (l : list R) :
  forall a, fold_left Rplus l a = a + fold_left Rplus l 0.
Proof.
  induction l as [|x l IH]; intros a; cbn [fold_left]; [lra|].
  rewrite (IH (a + x)), (IH (0 + x)). lra.
Qed.

Lemma column_values_length (df : DataFrame) (i : nat) :
  length (column_values df i) = length (rows df).
Proof. unfold column_values. apply length_map. Qed.
End WeightedScores.

Section WeightedScoreTheorems.
Import ModelComparator.

Variable df : DataFrame.
Hypothesis some_rows : rows df <> [].

Lemma column_nonempty (i : nat) : column_values df i <> [].
Proof.
  intros Hnil. apply (f_equal (@length R)) in Hnil.
  rewrite column_values_length in Hnil.
  destruct (rows df); [contradiction|discriminate].
Qed.

Lemma score_term_eq (metric : string) (weight : R) (i : nat) :
  column_index metric (columns df) = Some i ->
  exists mn mx,
    (forall k, (k < length (rows df))%nat -> mn <= cell df metric k <= mx) /\
    forall k, (k < length (rows df))%nat ->
      score_term df metric weight k =
        (if String.eqb metric "R2"
         then 1 - (cell df metric k - mn) / (mx - mn + 1e-10)
         else (cell df metric k - mn) / (mx - mn + 1e-10)) * weight.
Proof.
  intros Hi.
  destruct (normalize_nonempty metric _ (column_nonempty i)) as (mn & mx & Hb & Hn).
  exists mn, mx. split.
  - intros k Hk. apply Hb. unfold cell. rewrite Hi. apply nth_In.
    rewrite column_values_length. exact Hk.
  - intros k Hk. unfold score_term, cell. rewrite Hi, Hn.
    rewrite (nth_map_default _ _ k 0) by (rewrite column_values_length; exact Hk).
    reflexivity.
Qed.

Lemma score_term_range (metric : string) (weight : R) (k : nat) :
  column_index metric (columns df) <> None ->
  (k < length (rows df))%nat -> 0 <= weight ->
  0 <= score_term df metric weight k <= weight.
Proof.
  intros Hi Hk Hw.
  destruct (column_index metric (columns df)) as [i|] eqn:Ei; [|contradiction].
  destruct (score_term_eq metric weight i Ei) as (mn & mx & Hb & Heq).
  rewrite (Heq k Hk).
  pose proof (normalized_unit mn mx _ (Hb k Hk)) as Hq.
  destruct (String.eqb metric "R2"); nra.
Qed.

Lemma score_term_dominance (metric : string) (weight : R) (a b : nat) :
  column_index metric (columns df) <> None ->
  (a < length (rows df))%nat -> (b < length (rows df))%nat -> 0 <= weight ->
  (if String.eqb metric "R2"
   then cell df metric b <= cell df metric a
   else cell df metric a <= cell df metric b) ->
  score_term df metric weight a <= score_term df metric weight b.
Proof.
  intros Hi Ha Hb Hw Hcmp.
  destruct (column_index metric (columns df)) as [i|] eqn:Ei; [|contradiction].
  destruct (score_term_eq metric weight i Ei) as (mn & mx & Hbd & Heq).
  rewrite (Heq a Ha), (Heq b Hb).
  assert (Hmm : mn <= mx) by (pose proof (Hbd a Ha); lra).
  destruct (String.eqb metric "R2");
    pose proof (normalized_monotone mn mx _ _ Hmm Hcmp); nra.
Qed.

Lemma score_loop_terms (weights : list (string * R)) :
  (forall mw, In mw weights -> column_index (fst mw) (columns df) <> None) ->
  forall score, length score = length (rows df) ->
  exists out,
    score_loop df weights score = Ok out /\
    length out = length (rows df) /\
    forall k, (k < length (rows df))%nat ->
      nth k out 0 =
        nth k score 0 +
        fold_right (fun mw acc => score_term df (fst mw) (snd mw) k + acc) 0 weights.
Proof.
  induction weights as [|[metric weight] ws IH]; intros Hcols score Hlen.
  - exists score. split; [reflexivity|]. split; [exact Hlen|].
    intros k _. cbn [fold_right]. lra.
  - cbn [score_loop].
    pose proof (Hcols (metric, weight) (or_introl eq_refl)) as Hi. cbn [fst] in Hi.
    destruct (column_index metric (columns df)) as [i|] eqn:Ei; [|contradiction].
    destruct (normalize_nonempty metric _ (column_nonempty i)) as (mn & mx & _ & Hn).
    rewrite Hn. cbn [bind].
    set (normalized := map _ (column_values df i)) in *.
    assert (HlenN : length (map (fun x => x * weight) normalized) = length score).
    { subst normalized. rewrite !length_map, column_values_length. lia. }
    destruct (IH (fun mw H => Hcols mw (or_intror H))
                (add_arrays score (map (fun x => x * weight) normalized)))
      as (out & Hout & Hlo & Hk).
    { rewrite length_add_arrays by lia. exact Hlen. }
    exists out. split; [exact Hout|]. split; [exact Hlo|].
    intros k Hlt. rewrite (Hk k Hlt).
    rewrite nth_add_arrays by lia.
    rewrite (nth_map_default _ _ k 0)
      by (subst normalized; rewrite length_map, column_values_length; exact Hlt).
    cbn [fold_right fst snd]. unfold score_term at 2. rewrite Ei, Hn.
    fold normalized. lra.
Qed.
End WeightedScoreTheorems.

Section Ranking.
Import ModelComparator.

Lemma find_all_false {A : Type} (f : A -> bool) (l : list A) :
  (forall x, In x l -> f x = false) -> find f l = None.
Proof.
  induction l as [|a l IH]; intros H; [reflexivity|].
  cbn [find]. rewrite (H a (or_introl eq_refl)).
  apply IH. intros x Hx. apply H. right. exact Hx.
Qed.

Lemma map_fst_combine {A B : Type} (a : list A) (b : list B) :
  length a = length b -> map fst (combine a b) = a.
Proof.
  revert b. induction a as [|x a IH]; intros [|y b] Hlen; try discriminate;
    [reflexivity|].
  cbn [combine map fst]. rewrite IH by (cbn in Hlen; lia). reflexivity.
Qed.

Lemma sum_weights_fold (weights : list (string * R)) :
  fold_left Rplus (map snd weights) 0 =
    fold_right (fun mw acc => snd mw + acc) 0 weights.
Proof.
  induction weights as [|mw ws IH]; [reflexivity|].
  cbn [map fold_left fold_right]. rewrite fold_left_Rplus_acc, IH. lra.
Qed.

Lemma weighted_scores_ok (df : DataFrame) (weights : list (string * R)) :
  rows df <> [] ->
  Rabs (fold_left Rplus (map snd weights) 0 - 1) <= 0.01 ->
  (forall mw, In mw weights -> column_index (fst mw) (columns df) <> None) ->
  exists out,
    weighted_scores df (Some weights) = Ok (combine (map fst (rows df)) out) /\
    length out = length (rows df) /\
    forall k, (k < length (rows df))%nat ->
      nth k out 0 =
        fold_right (fun mw acc => score_term df (fst mw) (snd mw) k + acc) 0 weights.
Proof.
  intros Hrows Hsum Hcols.
  destruct (score_loop_terms df Hrows weights Hcols (map (fun _ => 0) (rows df)))
    as (out & Hout & Hlen & Hk).
  { apply length_map. }
  exists out. split; [|split; [exact Hlen|]].
  - unfold weighted_scores. cbv zeta.
    destruct (Rlt_dec 0.01 (Rabs (fold_left Rplus (map snd weights) 0 - 1)));
      [lra|].
    rewrite find_all_false.
    + rewrite Hout. reflexivity.
    + intros mw Hin. specialize (Hcols mw Hin).
      destruct (column_index (fst mw) (columns df)); [reflexivity|contradiction].
  - intros k Hlt. rewrite (Hk k Hlt).
    rewrite (nth_map_default (fun _ => 0) (rows df) k (EmptyString, [])) by exact Hlt.
    lra.
Qed.

Lemma score_sum_range (df : DataFrame) (weights : list (string * R)) (k : nat) :
  rows df <> [] ->
  (forall mw, In mw weights -> column_index (fst mw) (columns df) <> None) ->
  (forall mw, In mw weights -> 0 <= snd mw) ->
  (k < length (rows df))%nat ->
  0 <= fold_right (fun mw acc => score_term df (fst mw) (snd mw) k + acc) 0 weights
    <= fold_right (fun mw acc => snd mw + acc) 0 weights.
Proof.
  intros Hrows Hcols Hpos Hk.
  induction weights as [|mw ws IH]; cbn [fold_right]; [lra|].
  pose proof (score_term_range df Hrows (fst mw) (snd mw) k
                (Hcols mw (or_introl eq_refl)) Hk (Hpos mw (or_introl eq_refl))).
  specialize (IH (fun x H => Hcols x (or_intror H)) (fun x H => Hpos x (or_intror H))).
  lra.
Qed.

Lemma score_sum_dominance (df : DataFrame) (weights : list (string * R))
    (a b : nat) :
  rows df <> [] ->
  (forall mw, In mw weights -> column_index (fst mw) (columns df) <> None) ->
  (forall mw, In mw weights -> 0 <= snd mw) ->
  (a < length (rows df))%nat -> (b < length (rows df))%nat ->
  (forall mw, In mw weights ->
     if String.eqb (fst mw) "R2"
     then cell df (fst mw) b <= cell df (fst mw) a
     else cell df (fst mw) a <= cell df (fst mw) b) ->
  fold_right (fun mw acc => score_term df (fst mw) (snd mw) a + acc) 0 weights
    <= fold_right (fun mw acc => score_term df (fst mw) (snd mw) b + acc) 0 weights.
Proof.
  intros Hrows Hcols Hpos Ha Hb Hdom.
  induction weights as [|mw ws IH]; cbn [fold_right]; [lra|].
  pose proof (score_term_dominance df Hrows (fst mw) (snd mw) a b
                (Hcols mw (or_introl eq_refl)) Ha Hb (Hpos mw (or_introl eq_refl))
                (Hdom mw (or_introl eq_refl))).
  specialize (IH (fun x H => Hcols x (or_intror H)) (fun x H => Hpos x (or_intror H))
                (fun x H => Hdom x (or_intror H))).
  lra.
Qed.

Lemma nth_scores (names : list string) (out : list R) (k : nat) :
  length names = length out -> (k < length out)%nat ->
  snd (nth k (combine names out) (EmptyString, 0)) = nth k out 0.
Proof.
  intros Hlen Hk. rewrite combine_nth by exact Hlen. reflexivity.
Qed.

(** When the weights sum to 1 within 0.01, name metric columns of the frame
    and are not negative, and the frame has a row, the scores are computed for
    every row, under its model name and in row order, and each lies between 0
    and 1.01. *)
Theorem weighted_scores_range (df : DataFrame) (weights : list (string * R)) :
  rows df <> [] ->
  Rabs (fold_left Rplus (map snd weights) 0 - 1) <= 0.01 ->
  (forall mw, In mw weights -> column_index (fst mw) (columns df) <> None) ->
  (forall mw, In mw weights -> 0 <= snd mw) ->
  exists scores,
    weighted_scores df (Some weights) = Ok scores /\
    map fst scores = map fst (rows df) /\
    Forall (fun ms => 0 <= snd ms <= 1.01) scores.
Proof.
  intros Hrows Hsum Hcols Hpos.
  destruct (weighted_scores_ok df weights Hrows Hsum Hcols) as (out & Hws & Hlen & Hk).
  exists (combine (map fst (rows df)) out).
  split; [exact Hws|]. split.
  - apply map_fst_combine. rewrite length_map. lia.
  - assert (Htotal : fold_right (fun mw acc => snd mw + acc) 0 weights <= 1.01).
    { rewrite <- sum_weights_fold. revert Hsum. unfold Rabs.
      destruct (Rcase_abs _); lra. }
    apply Forall_nth. intros k d Hlt.
    rewrite length_combine, length_map, Hlen, Nat.min_id in Hlt.
    rewrite (nth_indep _ d (EmptyString, 0))
      by (rewrite length_combine, length_map, Hlen, Nat.min_id; exact Hlt).
    rewrite nth_scores by (rewrite ?length_map; lia).
    rewrite (Hk k Hlt).
    pose proof (score_sum_range df weights k Hrows Hcols Hpos Hlt). lra.
Qed.

(** Under the same conditions, a model that is no worse than another on
    every weighted metric (not larger where smaller is better, not smaller on
    R2) gets a score that is not larger, so the ranking by ascending score
    never puts it strictly behind. *)
Theorem weighted_scores_dominance (df : DataFrame) (weights : list (string * R))
    (a b : nat) :
  rows df <> [] ->
  Rabs (fold_left Rplus (map snd weights) 0 - 1) <= 0.01 ->
  (forall mw, In mw weights -> column_index (fst mw) (columns df) <> None) ->
  (forall mw, In mw weights -> 0 <= snd mw) ->
  (a < length (rows df))%nat -> (b < length (rows df))%nat ->
  (forall mw, In mw weights ->
     if String.eqb (fst mw) "R2"
     then cell df (fst mw) b <= cell df (fst mw) a
     else cell df (fst mw) a <= cell df (fst mw) b) ->
  exists scores,
    weighted_scores df (Some weights) = Ok scores /\
    snd (nth a scores (EmptyString, 0)) <= snd (nth b scores (EmptyString, 0)).
Proof.
  intros Hrows Hsum Hcols Hpos Ha Hb Hdom.
  destruct (weighted_scores_ok df weights Hrows Hsum Hcols) as (out & Hws & Hlen & Hk).
  exists (combine (map fst (rows df)) out).
  split; [exact Hws|].
  rewrite !nth_scores by (rewrite ?length_map; lia).
  rewrite (Hk a Ha), (Hk b Hb).
  apply score_sum_dominance; assumption.
Qed.

(** A frame without rows never yields scores: the call raises ValueError,
    for the default weights and for any others, because the weights do not
    sum to 1, or name a missing metric, or the first column has no minimum. *)
Theorem weighted_scores_no_rows (df : DataFrame)
    (weights : option (list (string * R))) :
  rows df = [] ->
  exists msg, weighted_scores df weights = Raise (ValueError msg).
Proof.
  intros Hrows. unfold weighted_scores. cbv zeta.
  set (w := match weights with None => default_weights | Some w => w end).
  destruct (Rlt_dec 0.01 (Rabs (fold_left Rplus (map snd w) 0 - 1))) as [_|Hsum];
    [eexists; reflexivity|].
  destruct (find _ w) as [mw|] eqn:Hfind; [eexists; reflexivity|].
  destruct w as [|[metric weight] ws].
  - exfalso. apply Hsum. change (0.01 < Rabs (0 - 1)).
    replace (0 - 1) with (- (1)) by ring. rewrite Rabs_Ropp, Rabs_R1. lra.
  - cbn [find fst] in Hfind. cbn [score_loop].
    destruct (column_index metric (columns df)) as [i|]; [|discriminate].
    unfold column_values. rewrite Hrows. cbn [map normalize np_min bind].
    eexists; reflexivity.
Qed.

Lemma sample_frame_sum :
  Rabs (fold_left Rplus (map snd sample_weights) 0 - 1) <= 0.01.
Proof.
  cbn [sample_weights map snd fold_left].
  replace (0 + 0.5 + 0.3 + 0.2 - 1) with 0 by lra. rewrite Rabs_R0. lra.
Qed.

Lemma sample_frame_columns (mw : string * R) :
  In mw sample_weights -> column_index (fst mw) (columns sample_frame) <> None.
Proof.
  intros [<-|[<-|[<-|[]]]]; discriminate.
Qed.

Lemma sample_frame_weights (mw : string * R) :
  In mw sample_weights -> 0 <= snd mw.
Proof.
  intros [<-|[<-|[<-|[]]]]; cbn [snd]; lra.
Qed.

Lemma weighted_scores_range_sample :
  exists scores,
    weighted_scores sample_frame (Some sample_weights) = Ok scores /\
    map fst scores = map fst (rows sample_frame) /\
    Forall (fun ms => 0 <= snd ms <= 1.01) scores.
Proof.
  apply (weighted_scores_range sample_frame sample_weights).
  - discriminate.
  - exact sample_frame_sum.
  - exact sample_frame_columns.
  - exact sample_frame_weights.
Defined.

Lemma weighted_scores_dominance_sample :
  exists scores,
    weighted_scores sample_frame (Some sample_weights) = Ok scores /\
    snd (nth 1 scores (EmptyString, 0)) <= snd (nth 0 scores (EmptyString, 0)).
Proof.
  apply (weighted_scores_dominance sample_frame sample_weights 1 0).
  - discriminate.
  - exact sample_frame_sum.
  - exact sample_frame_columns.
  - exact sample_frame_weights.
  - cbn. lia.
  - cbn. lia.
  - intros mw [<-|[<-|[<-|[]]]]; cbn; lra.
Defined.

Lemma weighted_scores_no_rows_empty :
  exists msg,
    weighted_scores {| columns := []; rows := [] |} None = Raise (ValueError msg).
Proof.
  apply (weighted_scores_no_rows {| columns := []; rows := [] |} None).
  reflexivity.
Defined.
End Ranking.
